(** * Shape inference of the ONNX dialect Sequence operations

    A shallow embedding of [src/Dialect/ONNX/ONNXOps/Sequence/Sequence.cpp]:
    the helper [sequenceAddType] and the [inferShapes] / [verify] members of
    the six sequence operations (SequenceAt, SequenceConstruct, SequenceEmpty,
    SequenceErase, SequenceInsert, SequenceLength).

    Conventions of the embedding.
    - An [int64_t] is a [Z]; arithmetic that can leave the 64-bit range is
      wrapped with [Int64.wrap].  The source writes the sentinel [-1] both
      for a dynamic dimension and for an unknown sequence length, and so
      does the embedding.
    - An operation is a record of the types of its operands, its attributes
      and the type of its result.  [getResult().setType(t)] is an update of
      the result field, so [inferShapes] maps an operation to a
      [LogicalResult] and the operation after the call.
    - A failed [assert] (and an out-of-range [types[0]]) aborts the
      program: such functions return [option], [None] being the abort. *)

From Stdlib Require Import String ZArith List Bool Lia Permutation.
Import ListNotations.
Open Scope Z_scope.

(* ------------------------------------------------------------------ *)
(** ** Machine integers *)

Module Int64.

Definition min_signed : Z := - 2 ^ 63.
Definition max_signed : Z := 2 ^ 63 - 1.
Definition modulus : Z := 2 ^ 64.

(** Two's complement reduction into the [int64_t] range. *)
Definition wrap (z : Z) : Z := (z - min_signed) mod modulus + min_signed.

Definition in_range (z : Z) : Prop := min_signed <= z <= max_signed.

End Int64.

(* ------------------------------------------------------------------ *)
(** ** The types the sequence operations see *)

Inductive Signedness : Set := Signless | Signed | Unsigned.

(** Scalar (element) types of tensors: the builtin floats and integers,
    and the dialect's string type. *)
Inductive ElemType : Set :=
| BF16Type
| F16Type
| F32Type
| F64Type
| IntegerType (width : N) (sign : Signedness)
| StringType.

Definition Signedness_eqb (a b : Signedness) : bool :=
  match a, b with
  | Signless, Signless | Signed, Signed | Unsigned, Unsigned => true
  | _, _ => false
  end.

Definition ElemType_eqb (a b : ElemType) : bool :=
  match a, b with
  | BF16Type, BF16Type | F16Type, F16Type
  | F32Type, F32Type | F64Type, F64Type
  | StringType, StringType => true
  | IntegerType w1 s1, IntegerType w2 s2 => N.eqb w1 w2 && Signedness_eqb s1 s2
  | _, _ => false
  end.

(** [builder.getF32Type()] and [builder.getIntegerType(64)] (signless). *)
Definition getF32Type : ElemType := F32Type.
Definition getIntegerType (width : N) : ElemType := IntegerType width Signless.

(** The [ShapedType]s that occur as sequence elements and as tensor
    operands: [tensor<*xT>] and [tensor<d0x...xdnxT>].  A dimension is an
    [int64_t]; [-1] stands for a dynamic size. *)
Inductive ShapedType : Set :=
| UnrankedTensorType (elementType : ElemType)
| RankedTensorType (shape : list Z) (elementType : ElemType).

Definition getElementType (t : ShapedType) : ElemType :=
  match t with
  | UnrankedTensorType e => e
  | RankedTensorType _ e => e
  end.

Definition hasRank (t : ShapedType) : bool :=
  match t with
  | UnrankedTensorType _ => false
  | RankedTensorType _ _ => true
  end.

Definition getShape (t : ShapedType) : list Z :=
  match t with
  | UnrankedTensorType _ => []
  | RankedTensorType dims _ => dims
  end.

Definition getRank (t : ShapedType) : Z := Z.of_nat (length (getShape t)).

(** [SeqType::get(elementType, length)]; [getLength() == -1] when the
    length is not known statically. *)
Record SeqType : Set := SeqType_get {
  seqElementType : ShapedType;
  getLength : Z
}.

(** An arbitrary [mlir::Type], as far as [isa<...>] on a result
    distinguishes them. *)
Inductive MlirType : Set :=
| TensorT (t : ShapedType)
| SeqT (s : SeqType)
| ScalarT (e : ElemType)
| NoneT.

Definition isaUnrankedTensorType (t : MlirType) : bool :=
  match t with
  | TensorT (UnrankedTensorType _) => true
  | _ => false
  end.

Definition isaRankedTensorType (t : MlirType) : bool :=
  match t with
  | TensorT (RankedTensorType _ _) => true
  | _ => false
  end.

(** [success()], or the failure an [emitError(msg)] converts to. *)
Inductive LogicalResult : Set :=
| success
| failure (diagnostic : string).

Definition succeeded (r : LogicalResult) : bool :=
  match r with success => true | failure _ => false end.

(** Sequencing of computations that may abort. *)
Definition bind {A B : Type} (c : option A) (k : A -> option B) : option B :=
  match c with
  | Some a => k a
  | None => None
  end.

Notation "x <- c ;; k" := (bind c (fun x => k))
  (at level 61, c at next level, right associativity).

(* ------------------------------------------------------------------ *)
(** ** Support: [sequenceAddType] *)

(** The body of the [for] loop over [i] in [0 .. rank): [n] iterations are
    left, [dims] is the vector pushed so far.  [acc[i]] and [add[i]] are
    reads of the two shapes. *)
Fixpoint sequenceAddType_loop (acc add : list Z) (i n : nat) (dims : list Z)
  : list Z :=
  match n with
  | O => dims
  | S n' =>
      let a := nth i acc 0 in
      let b := nth i add 0 in
      sequenceAddType_loop acc add (S i) n'
        (dims ++ [if negb (a =? b) then -1 else b])
  end.

Definition sequenceAddType (accumulatedType additionalType : ShapedType)
  : option ShapedType :=
  let elementType := getElementType accumulatedType in
  if negb (ElemType_eqb elementType (getElementType additionalType)) then
    None (* assert: types to merge must have the same data type *)
  else if negb (hasRank accumulatedType) then Some accumulatedType
  else if negb (hasRank additionalType) then Some additionalType
  else
    let rank := getRank accumulatedType in
    if negb (rank =? getRank additionalType) then
      Some (UnrankedTensorType elementType)
    else
      let acc := getShape accumulatedType in
      let add := getShape additionalType in
      Some (RankedTensorType
              (sequenceAddType_loop acc add 0 (Z.to_nat rank) [])
              elementType).

(* ------------------------------------------------------------------ *)
(** ** The operations

    Operands and results whose type the source [cast]s to [SeqType] or to
    [ShapedType] are fields of that type (the operation's declared operand
    and result constraints guarantee the cast); a result the source tests
    with [isa] is an arbitrary [MlirType]. *)

Module ONNXSequenceAtOp.

Record Op : Set := Build {
  input_sequence : SeqType;
  position : MlirType;
  getResult : MlirType
}.

Definition setType (op : Op) (t : MlirType) : Op :=
  Build (input_sequence op) (position op) t.

Definition inferShapes (op : Op) : LogicalResult * Op :=
  let outputType := getResult op in
  let inputElementType := seqElementType (input_sequence op) in
  if negb (isaUnrankedTensorType (TensorT inputElementType))
     && isaUnrankedTensorType outputType
  then (success, setType op (TensorT inputElementType))
  else (success, op).

End ONNXSequenceAtOp.

Module ONNXSequenceConstructOp.

Record Op : Set := Build {
  inputs : list ShapedType;
  getResult : SeqType
}.

Definition setType (op : Op) (t : SeqType) : Op := Build (inputs op) t.

(** The loop over [i] in [1 .. types.size()), [n] iterations left. *)
Fixpoint inferShapes_loop (types : list ShapedType) (i n : nat)
    (seqTensorType : ShapedType) : option ShapedType :=
  match n with
  | O => Some seqTensorType
  | S n' =>
      t <- nth_error types i ;;
      seqTensorType' <- sequenceAddType seqTensorType t ;;
      inferShapes_loop types (S i) n' seqTensorType'
  end.

Definition inferShapes (op : Op) : option (LogicalResult * Op) :=
  let types := inputs op in
  seqTensorType <- nth_error types 0 ;;
  seqTensorType' <-
    inferShapes_loop types 1 (length types - 1)%nat seqTensorType ;;
  Some (success,
        setType op
          (SeqType_get seqTensorType'
             (Int64.wrap (Z.of_nat (length types))))).

End ONNXSequenceConstructOp.

Module ONNXSequenceEmptyOp.

Record Op : Set := Build {
  dtypeAttr : option Z;
  getResult : SeqType
}.

Definition setType (op : Op) (t : SeqType) : Op := Build (dtypeAttr op) t.

Section Verify.

(** [convertONNXTypeToMLIRType] is declared in [OpHelper.hpp]; it maps
    an [onnx::TensorProto_DataType] code to an element type. *)
Variable convertONNXTypeToMLIRType : Z -> ElemType.

(** The scalar type the operation asks for: the attribute's when it is
    present, F32 otherwise. *)
Definition resolvedElementType (op : Op) : ElemType :=
  match dtypeAttr op with
  | Some dtype => convertONNXTypeToMLIRType dtype
  | None => getF32Type
  end.

Definition verify (op : Op) : LogicalResult :=
  let elementType := resolvedElementType op in
  let outputSeqElementType := seqElementType (getResult op) in
  if negb (ElemType_eqb (getElementType outputSeqElementType) elementType)
  then failure "SequenceEmpty dtype() does not match the output type"
  else success.

End Verify.

Definition inferShapes (op : Op) : LogicalResult * Op :=
  let originTy := getResult op in
  let elementTy := seqElementType originTy in
  let returnTy := SeqType_get elementTy 0 in
  (success, setType op returnTy).

End ONNXSequenceEmptyOp.

Module ONNXSequenceEraseOp.

Record Op : Set := Build {
  input_sequence : SeqType;
  position : MlirType;
  getResult : SeqType
}.

Definition setType (op : Op) (t : SeqType) : Op :=
  Build (input_sequence op) (position op) t.

Definition inferShapes (op : Op) : LogicalResult * Op :=
  let inputTy := input_sequence op in
  let length := getLength inputTy in
  if length =? 0 then (failure "SequenceErase from an empty seq", op)
  else
    (success,
     setType op
       (SeqType_get (seqElementType inputTy)
          (if length =? -1 then -1 else Int64.wrap (length - 1)))).

End ONNXSequenceEraseOp.

Module ONNXSequenceInsertOp.

Record Op : Set := Build {
  input_sequence : SeqType;
  tensor : ShapedType;
  position : MlirType;
  getResult : SeqType
}.

Definition setType (op : Op) (t : SeqType) : Op :=
  Build (input_sequence op) (tensor op) (position op) t.

Definition verify (op : Op) : LogicalResult :=
  let seqElementType := seqElementType (input_sequence op) in
  let elementType1 := getElementType seqElementType in
  let insertType := tensor op in
  let elementType2 := getElementType insertType in
  if negb (ElemType_eqb elementType1 elementType2)
  then failure "Element types of the tensor in seqence and input have to be the same"
  else success.

Definition inferShapes (op : Op) : option (LogicalResult * Op) :=
  let seqType := input_sequence op in
  let tensorType := tensor op in
  let length := getLength seqType in
  if length =? 0 then
    Some (success, setType op (SeqType_get tensorType 1))
  else
    let newLength := if length =? -1 then -1 else Int64.wrap (length + 1) in
    let seqTensorType := seqElementType seqType in
    seqTensorType' <- sequenceAddType seqTensorType tensorType ;;
    Some (success, setType op (SeqType_get seqTensorType' newLength)).

End ONNXSequenceInsertOp.

Module ONNXSequenceLengthOp.

Record Op : Set := Build {
  input_sequence : SeqType;
  getResult : MlirType
}.

Definition setType (op : Op) (t : MlirType) : Op :=
  Build (input_sequence op) t.

(** [outputTy.cast<RankedTensorType>().getRank()], evaluated only after
    [isa<RankedTensorType>] held. *)
Definition rankOfRanked (outputTy : MlirType) : Z :=
  match outputTy with
  | TensorT t => getRank t
  | _ => 0
  end.

Definition inferShapes (op : Op) : LogicalResult * Op :=
  let outputTy := getResult op in
  if negb (isaRankedTensorType outputTy)
     || negb (rankOfRanked outputTy =? 0)
  then
    let dims : list Z := [] in
    let scalarTy := TensorT (RankedTensorType dims (getIntegerType 64)) in
    (success, setType op scalarTy)
  else (success, op).

End ONNXSequenceLengthOp.

(* ------------------------------------------------------------------ *)
(** ** Reference model of the shape merge

    The data model and the merge of the specification, written from its
    words and independent of the code above: a dimension is [Static v] or
    [Dynamic], a shape is [Unranked] or [Ranked dims], and

    + if either shape is [Unranked], the result is [Unranked];
    + else if the ranks differ, the result is [Unranked];
    + else each result dimension is [Static v] if both sides are
      [Static v] with equal [v], and [Dynamic] otherwise. *)

Module Spec.

Inductive DimSize : Set :=
| Static (v : N)
| Dynamic.

Inductive Shape : Set :=
| Unranked
| Ranked (dims : list DimSize).

Record TensorShapeDescriptor : Set := Descriptor {
  elementDataType : ElemType;
  shape : Shape
}.

Definition mergeDim (x y : DimSize) : DimSize :=
  match x, y with
  | Static v, Static w => if N.eqb v w then Static v else Dynamic
  | _, _ => Dynamic
  end.

Definition mergeShape (a b : Shape) : Shape :=
  match a, b with
  | Unranked, _ => Unranked
  | _, Unranked => Unranked
  | Ranked da, Ranked db =>
      if Nat.eqb (length da) (length db)
      then Ranked (map (fun p => mergeDim (fst p) (snd p)) (combine da db))
      else Unranked
  end.

Definition merge (a b : TensorShapeDescriptor) : TensorShapeDescriptor :=
  Descriptor (elementDataType a) (mergeShape (shape a) (shape b)).

End Spec.

(** Reading a type of the code as a descriptor of the reference model. *)
Definition dimOf (d : Z) : Spec.DimSize :=
  if d =? -1 then Spec.Dynamic else Spec.Static (Z.to_N d).

Definition descriptorOf (t : ShapedType) : Spec.TensorShapeDescriptor :=
  match t with
  | UnrankedTensorType e => Spec.Descriptor e Spec.Unranked
  | RankedTensorType dims e => Spec.Descriptor e (Spec.Ranked (map dimOf dims))
  end.

(** A tensor type is well formed when each of its dimensions is a size or
    the dynamic marker [-1]. *)
Definition wfShapedType (t : ShapedType) : Prop :=
  Forall (fun d => -1 <= d) (getShape t).

(** The selection made by one iteration of the loop of [sequenceAddType],
    and the loop's result on two shapes of one rank. *)
Definition pickDim (a b : Z) : Z := if negb (a =? b) then -1 else b.

Definition zipDims (acc add : list Z) : list Z :=
  map (fun p => pickDim (fst p) (snd p)) (combine acc add).

(** What [sequenceAddType] returns on two types of one element type. *)
Definition mergedType (a b : ShapedType) : ShapedType :=
  match a, b with
  | UnrankedTensorType _, _ => a
  | _, UnrankedTensorType _ => b
  | RankedTensorType da e, RankedTensorType db _ =>
      if Nat.eqb (length da) (length db)
      then RankedTensorType (zipDims da db) e
      else UnrankedTensorType e
  end.

(** The left fold of a list of tensor types through [sequenceAddType]. *)
Fixpoint sequenceAddType_fold (acc : ShapedType) (l : list ShapedType)
  : option ShapedType :=
  match l with
  | [] => Some acc
  | t :: l' =>
      acc' <- sequenceAddType acc t ;;
      sequenceAddType_fold acc' l'
  end.

(** Modelled from the spec: the numeric-code-to-scalar-type mapping that
    Construct-Empty uses to resolve its attribute
    ([convertONNXTypeToMLIRType], declared in [OpHelper.hpp]).  The
    properties below hold for every such mapping; this one, over a few
    codes of [onnx::TensorProto_DataType], instantiates the examples. *)
Definition exampleONNXTypeToMLIRType (dtype : Z) : ElemType :=
  match dtype with
  | 1 => F32Type
  | 6 => IntegerType 32 Signless
  | 7 => IntegerType 64 Signless
  | 10 => F16Type
  | 11 => F64Type
  | 16 => BF16Type
  | _ => StringType
  end.

(** The result type SequenceLength sets. *)
Definition scalarI64Type : MlirType :=
  TensorT (RankedTensorType [] (getIntegerType 64)).

(* ------------------------------------------------------------------ *)
(** ** The order on tensor types

    [sequenceAddType] picks "the weaker attr: known dim > unknown dim >
    unranked".  [weakerType r a] holds when [r] is at most as specific as
    [a]: the element types agree, and [r] is unranked, or both are ranked
    with one rank and each dimension of [r] is dynamic or the dimension of
    [a]. *)

Definition weakerDim (r a : Z) : bool := (r =? -1) || (r =? a).

Fixpoint weakerDims (r a : list Z) : bool :=
  match r, a with
  | [], [] => true
  | x :: r', y :: a' => weakerDim x y && weakerDims r' a'
  | _, _ => false
  end.

Definition weakerType (r a : ShapedType) : bool :=
  ElemType_eqb (getElementType r) (getElementType a)
  && match r, a with
     | UnrankedTensorType _, _ => true
     | RankedTensorType _ _, UnrankedTensorType _ => false
     | RankedTensorType dr _, RankedTensorType da _ => weakerDims dr da
     end.

(* ------------------------------------------------------------------ *)
(** ** Element types and the dimension loop *)

Lemma Signedness_eqb_eq (a b : Signedness) :
  Signedness_eqb a b = true <-> a = b.
Proof.
  destruct a, b; simpl; split; intro H; try reflexivity; discriminate H.
Qed.

Lemma ElemType_eqb_eq (a b : ElemType) : ElemType_eqb a b = true <-> a = b.
Proof.
  destruct a as [| | | |w1 s1|], b as [| | | |w2 s2|]; simpl;
    split; intro H; try reflexivity; try discriminate H.
  - apply andb_true_iff in H as [Hw Hs].
    apply N.eqb_eq in Hw. apply Signedness_eqb_eq in Hs. now subst.
  - injection H as -> ->. apply andb_true_iff. split.
    + apply N.eqb_refl.
    + now apply Signedness_eqb_eq.
Qed.

Lemma ElemType_eqb_refl (a : ElemType) : ElemType_eqb a a = true.
Proof. now apply ElemType_eqb_eq. Qed.

Lemma ElemType_eqb_neq (a b : ElemType) : a <> b -> ElemType_eqb a b = false.
Proof.
  intro H. destruct (ElemType_eqb a b) eqn:E; [|reflexivity].
  apply ElemType_eqb_eq in E. contradiction.
Qed.

Lemma pickDim_comm (a b : Z) : pickDim a b = pickDim b a.
Proof.
  unfold pickDim. rewrite (Z.eqb_sym b a).
  destruct (a =? b) eqn:E; simpl; [|reflexivity].
  apply Z.eqb_eq in E. now subst.
Qed.

Lemma pickDim_diag (a : Z) : pickDim a a = a.
Proof. unfold pickDim. now rewrite Z.eqb_refl. Qed.

Lemma zipDims_comm (acc add : list Z) : zipDims acc add = zipDims add acc.
Proof.
  revert add. induction acc as [|a acc IH]; intros [|b add];
    try reflexivity.
  unfold zipDims in *. simpl. now rewrite pickDim_comm, IH.
Qed.

Lemma zipDims_diag (dims : list Z) : zipDims dims dims = dims.
Proof.
  induction dims as [|d dims IH]; [reflexivity|].
  unfold zipDims in *. simpl. now rewrite pickDim_diag, IH.
Qed.

Lemma zipDims_length (acc add : list Z) :
  length acc = length add -> length (zipDims acc add) = length acc.
Proof.
  intro H. unfold zipDims. rewrite length_map, length_combine, <- H.
  apply Nat.min_id.
Qed.

(** The loop started at index [length pre], with [dims] already pushed,
    appends the selection over the remaining suffixes. *)
Lemma sequenceAddType_loop_suffix (acc add pre_acc pre_add dims : list Z) :
  length pre_acc = length pre_add ->
  length acc = length add ->
  sequenceAddType_loop (pre_acc ++ acc) (pre_add ++ add)
    (length pre_acc) (length acc) dims
  = dims ++ zipDims acc add.
Proof.
  revert add pre_acc pre_add dims.
  induction acc as [|a acc IH]; intros [|b add] pre_acc pre_add dims Hp Hl;
    try discriminate Hl.
  - simpl. now rewrite app_nil_r.
  - simpl in Hl. injection Hl as Hl. simpl.
    rewrite (nth_middle pre_acc acc a 0).
    rewrite Hp, (nth_middle pre_add add b 0), <- Hp.
    replace (S (length pre_acc)) with (length (pre_acc ++ [a]))
      by (rewrite length_app; simpl; lia).
    replace (pre_acc ++ a :: acc) with ((pre_acc ++ [a]) ++ acc)
      by (now rewrite <- app_assoc).
    replace (pre_add ++ b :: add) with ((pre_add ++ [b]) ++ add)
      by (now rewrite <- app_assoc).
    rewrite IH.
    + rewrite <- app_assoc. reflexivity.
    + rewrite !length_app. simpl. lia.
    + exact Hl.
Qed.

Lemma sequenceAddType_loop_zip (acc add : list Z) :
  length acc = length add ->
  sequenceAddType_loop acc add 0 (length acc) [] = zipDims acc add.
Proof.
  intro H.
  exact (sequenceAddType_loop_suffix acc add [] [] [] eq_refl H).
Qed.

(* ------------------------------------------------------------------ *)
(** ** [sequenceAddType] *)

Lemma sequenceAddType_same_elementType (a b : ShapedType) :
  getElementType a = getElementType b ->
  sequenceAddType a b = Some (mergedType a b).
Proof.
  intro He. unfold sequenceAddType.
  rewrite He, ElemType_eqb_refl. simpl.
  destruct a as [ea|da ea], b as [eb|db eb]; simpl in *; try reflexivity.
  unfold getRank. simpl.
  destruct (Nat.eqb (length da) (length db)) eqn:E.
  - apply Nat.eqb_eq in E. rewrite E, Z.eqb_refl. simpl.
    rewrite Nat2Z.id, <- E, sequenceAddType_loop_zip by exact E.
    now rewrite He.
  - apply Nat.eqb_neq in E.
    destruct (Z.of_nat (length da) =? Z.of_nat (length db)) eqn:E'.
    + apply Z.eqb_eq in E'. lia.
    + simpl. now rewrite He.
Qed.

Lemma sequenceAddType_other_elementType (a b : ShapedType) :
  getElementType a <> getElementType b -> sequenceAddType a b = None.
Proof.
  intro He. unfold sequenceAddType.
  now rewrite (ElemType_eqb_neq _ _ He).
Qed.

Lemma mergedType_elementType (a b : ShapedType) :
  getElementType a = getElementType b ->
  getElementType (mergedType a b) = getElementType a.
Proof.
  destruct a as [ea|da ea], b as [eb|db eb]; simpl; intro He;
    try congruence.
  now destruct (Nat.eqb (length da) (length db)).
Qed.

Lemma mergedType_comm (a b : ShapedType) :
  getElementType a = getElementType b -> mergedType a b = mergedType b a.
Proof.
  destruct a as [ea|da ea], b as [eb|db eb]; simpl; intro He; subst;
    try reflexivity.
  rewrite (Nat.eqb_sym (length db) (length da)), (zipDims_comm db da).
  reflexivity.
Qed.

Lemma mergedType_diag (x : ShapedType) : mergedType x x = x.
Proof.
  destruct x as [e|dims e]; simpl; [reflexivity|].
  now rewrite Nat.eqb_refl, zipDims_diag.
Qed.

Lemma pickDim_wf (a b : Z) : -1 <= b -> -1 <= pickDim a b.
Proof. unfold pickDim. destruct (negb (a =? b)); lia. Qed.

Lemma zipDims_wf (acc add : list Z) :
  Forall (fun d => -1 <= d) add -> Forall (fun d => -1 <= d) (zipDims acc add).
Proof.
  revert add. induction acc as [|a acc IH]; intros [|b add] H;
    try (now constructor).
  inversion H as [|? ? Hb Hadd]; subst.
  unfold zipDims in *. simpl. constructor.
  - now apply pickDim_wf.
  - now apply IH.
Qed.

Lemma mergedType_wf (a b : ShapedType) :
  wfShapedType a -> wfShapedType b -> wfShapedType (mergedType a b).
Proof.
  unfold wfShapedType.
  destruct a as [ea|da ea], b as [eb|db eb]; simpl; intros Ha Hb;
    try (now constructor).
  destruct (Nat.eqb (length da) (length db)); simpl.
  - now apply zipDims_wf.
  - constructor.
Qed.

(** One dimension: the code's selection read as a [DimSize] is the
    reference [mergeDim] of the two dimensions read as [DimSize]s. *)
Lemma dimOf_pickDim (a b : Z) :
  -1 <= a -> -1 <= b ->
  dimOf (pickDim a b) = Spec.mergeDim (dimOf a) (dimOf b).
Proof.
  intros Ha Hb. unfold pickDim, dimOf.
  destruct (a =? b) eqn:Eab; simpl.
  - apply Z.eqb_eq in Eab. subst b.
    destruct (a =? -1); simpl; [reflexivity|].
    now rewrite N.eqb_refl.
  - apply Z.eqb_neq in Eab.
    destruct (a =? -1) eqn:Ea; simpl; [reflexivity|].
    destruct (b =? -1) eqn:Eb; simpl; [reflexivity|].
    apply Z.eqb_neq in Ea, Eb.
    destruct (N.eqb (Z.to_N a) (Z.to_N b)) eqn:E; [|reflexivity].
    apply N.eqb_eq in E. apply (f_equal Z.of_N) in E.
    rewrite !Z2N.id in E by lia. contradiction.
Qed.

Lemma map_dimOf_zipDims (acc add : list Z) :
  Forall (fun d => -1 <= d) acc -> Forall (fun d => -1 <= d) add ->
  map dimOf (zipDims acc add)
  = map (fun p => Spec.mergeDim (fst p) (snd p))
      (combine (map dimOf acc) (map dimOf add)).
Proof.
  revert add. induction acc as [|a acc IH]; intros [|b add] Ha Hb;
    try reflexivity.
  inversion Ha as [|? ? Ha0 Ha']; inversion Hb as [|? ? Hb0 Hb']; subst.
  unfold zipDims in *. simpl.
  now rewrite dimOf_pickDim, IH.
Qed.

Lemma descriptorOf_mergedType (a b : ShapedType) :
  getElementType a = getElementType b ->
  wfShapedType a -> wfShapedType b ->
  descriptorOf (mergedType a b) = Spec.merge (descriptorOf a) (descriptorOf b).
Proof.
  unfold wfShapedType, Spec.merge.
  destruct a as [ea|da ea], b as [eb|db eb]; simpl; intros He Ha Hb;
    subst; try reflexivity.
  rewrite !length_map.
  destruct (Nat.eqb (length da) (length db)); simpl; [|reflexivity].
  now rewrite map_dimOf_zipDims.
Qed.

(* ------------------------------------------------------------------ *)
(** ** The reference merge does what its three rules say *)

Lemma Spec_mergeShape_unranked (a b : Spec.Shape) :
  a = Spec.Unranked \/ b = Spec.Unranked ->
  Spec.mergeShape a b = Spec.Unranked.
Proof.
  intros [-> | ->]; [reflexivity|]. now destruct a.
Qed.

Lemma Spec_mergeShape_rank_mismatch (da db : list Spec.DimSize) :
  length da <> length db ->
  Spec.mergeShape (Spec.Ranked da) (Spec.Ranked db) = Spec.Unranked.
Proof.
  intro H. simpl. apply Nat.eqb_neq in H. now rewrite H.
Qed.

Lemma Spec_mergeDim_static (x y : Spec.DimSize) (v : N) :
  Spec.mergeDim x y = Spec.Static v <-> x = Spec.Static v /\ y = Spec.Static v.
Proof.
  destruct x as [vx|], y as [vy|]; simpl; split;
    try (intro H; discriminate H);
    try (intros [H1 H2]; discriminate H1 || discriminate H2).
  - destruct (N.eqb vx vy) eqn:E; intro H; [|discriminate H].
    apply N.eqb_eq in E. injection H as ->. now subst.
  - intros [H1 H2]. injection H1 as ->. injection H2 as ->.
    now rewrite N.eqb_refl.
Qed.

Lemma Spec_mergeShape_same_rank (da db : list Spec.DimSize) :
  length da = length db ->
  exists dims,
    Spec.mergeShape (Spec.Ranked da) (Spec.Ranked db) = Spec.Ranked dims
    /\ length dims = length da
    /\ forall i, (i < length da)%nat ->
         nth i dims Spec.Dynamic
         = Spec.mergeDim (nth i da Spec.Dynamic) (nth i db Spec.Dynamic).
Proof.
  intro H. simpl. rewrite (proj2 (Nat.eqb_eq _ _) H).
  eexists. split; [reflexivity|]. split.
  - rewrite length_map, length_combine, <- H. apply Nat.min_id.
  - intros i Hi.
    change Spec.Dynamic
      with ((fun p => Spec.mergeDim (fst p) (snd p)) (Spec.Dynamic, Spec.Dynamic))
      at 1.
    rewrite map_nth, combine_nth by exact H. reflexivity.
Qed.

(* ------------------------------------------------------------------ *)
(** ** Claims about the merge *)

(** C6.  On two well-formed tensor types of one element type,
    [sequenceAddType] returns (its assertion holds) a well-formed type
    which, read as a descriptor, is the reference [Spec.merge] of the two
    inputs read as descriptors: [Unranked] if either is unranked or the
    ranks differ, and otherwise ranked of the same rank, each dimension
    [Static v] when both are [Static v] and [Dynamic] otherwise.  The
    function takes and returns tensor types only, so it cannot read or
    change a sequence length: applied to the element type of a sequence,
    its result is the same whatever length the sequence carries. *)
Theorem sequenceAddType_refines_merge (a b : ShapedType) :
  wfShapedType a -> wfShapedType b ->
  getElementType a = getElementType b ->
  (exists r,
      sequenceAddType a b = Some r
      /\ wfShapedType r
      /\ descriptorOf r = Spec.merge (descriptorOf a) (descriptorOf b))
  /\ (forall len len' : Z,
        sequenceAddType (seqElementType (SeqType_get a len)) b
        = sequenceAddType (seqElementType (SeqType_get a len')) b).
Proof.
  intros Ha Hb He. split.
  - exists (mergedType a b). split; [|split].
    + now apply sequenceAddType_same_elementType.
    + now apply mergedType_wf.
    + now apply descriptorOf_mergedType.
  - intros len len'. reflexivity.
Qed.

Lemma sequenceAddType_refines_merge_witness :
  let a := RankedTensorType [2; -1; 5] F32Type in
  let b := RankedTensorType [2; 3; 4] F32Type in
  wfShapedType a /\ wfShapedType b
  /\ getElementType a = getElementType b
  /\ sequenceAddType a b = Some (RankedTensorType [2; -1; -1] F32Type)
  /\ descriptorOf (RankedTensorType [2; -1; -1] F32Type)
     = Spec.merge (descriptorOf a) (descriptorOf b).
Proof.
  intros a b.
  assert (Ha : wfShapedType a)
    by (repeat constructor; discriminate).
  assert (Hb : wfShapedType b)
    by (repeat constructor; discriminate).
  destruct (sequenceAddType_refines_merge a b Ha Hb eq_refl)
    as [[r [Hr [_ Hd]]] _].
  assert (Er : r = RankedTensorType [2; -1; -1] F32Type).
  { vm_compute in Hr. now injection Hr as <-. }
  subst r. repeat split; assumption || reflexivity.
Defined.

(** C7.  [sequenceAddType] is commutative on two tensor types of one
    element type (both orders return, and return the same type), and
    idempotent: merging a type with itself returns that type. *)
Theorem sequenceAddType_comm_idem :
  (forall a b : ShapedType,
      getElementType a = getElementType b ->
      sequenceAddType a b = sequenceAddType b a
      /\ exists r, sequenceAddType a b = Some r)
  /\ (forall x : ShapedType, sequenceAddType x x = Some x).
Proof.
  split.
  - intros a b He. split.
    + rewrite (sequenceAddType_same_elementType a b He).
      rewrite (sequenceAddType_same_elementType b a (eq_sym He)).
      now rewrite mergedType_comm.
    + eexists. now apply sequenceAddType_same_elementType.
  - intro x.
    rewrite (sequenceAddType_same_elementType x x eq_refl).
    now rewrite mergedType_diag.
Qed.

Lemma sequenceAddType_comm_idem_witness :
  let a := RankedTensorType [2; 3] F32Type in
  let b := UnrankedTensorType F32Type in
  getElementType a = getElementType b
  /\ sequenceAddType a b = sequenceAddType b a.
Proof.
  intros a b. split; [reflexivity|].
  exact (proj1 (proj1 sequenceAddType_comm_idem a b eq_refl)).
Defined.

(* ------------------------------------------------------------------ *)
(** ** Machine arithmetic on lengths *)

Lemma Int64_wrap_in_range (z : Z) : Int64.in_range z -> Int64.wrap z = z.
Proof.
  unfold Int64.in_range, Int64.wrap, Int64.min_signed, Int64.max_signed,
    Int64.modulus.
  intro H. rewrite Z.mod_small by lia. lia.
Qed.

(* ------------------------------------------------------------------ *)
(** ** SequenceConstruct *)

Lemma sequenceAddType_fold_loop (rest pre : list ShapedType)
    (acc : ShapedType) :
  ONNXSequenceConstructOp.inferShapes_loop (pre ++ rest) (length pre)
    (length rest) acc
  = sequenceAddType_fold acc rest.
Proof.
  revert pre acc. induction rest as [|t rest IH]; intros pre acc.
  - reflexivity.
  - simpl. rewrite nth_error_app2, Nat.sub_diag by lia. simpl.
    destruct (sequenceAddType acc t) as [acc'|]; simpl; [|reflexivity].
    specialize (IH (pre ++ [t]) acc').
    rewrite <- app_assoc, length_app, Nat.add_1_r in IH. exact IH.
Qed.

Lemma sequenceAddType_fold_same_elementType (rest : list ShapedType) :
  forall acc : ShapedType,
    Forall (fun t => getElementType t = getElementType acc) rest ->
    exists d,
      sequenceAddType_fold acc rest = Some d
      /\ getElementType d = getElementType acc
      /\ (wfShapedType acc -> Forall wfShapedType rest ->
          wfShapedType d
          /\ descriptorOf d
             = fold_left Spec.merge (map descriptorOf rest) (descriptorOf acc)).
Proof.
  induction rest as [|t rest IH]; intros acc He.
  - exists acc. simpl. repeat split; auto.
  - inversion He as [|? ? Ht Hrest]; subst. simpl.
    rewrite (sequenceAddType_same_elementType acc t (eq_sym Ht)). simpl.
    pose proof (mergedType_elementType acc t (eq_sym Ht)) as Hm.
    destruct (IH (mergedType acc t)) as [d [Hd [Hed Hwf]]].
    { rewrite Hm. exact Hrest. }
    exists d. split; [exact Hd|]. split; [congruence|].
    intros Hacc Hall. inversion Hall as [|? ? Hwt Hwrest]; subst.
    rewrite <- (descriptorOf_mergedType acc t (eq_sym Ht) Hacc Hwt).
    apply Hwf; [now apply mergedType_wf | exact Hwrest].
Qed.

Lemma construct_inferShapes_equation (op : ONNXSequenceConstructOp.Op)
    (t0 : ShapedType) (rest : list ShapedType) :
  ONNXSequenceConstructOp.inputs op = t0 :: rest ->
  Forall (fun t => getElementType t = getElementType t0) rest ->
  Z.of_nat (length (t0 :: rest)) <= Int64.max_signed ->
  exists d,
    ONNXSequenceConstructOp.inferShapes op
    = Some (success,
            ONNXSequenceConstructOp.setType op
              (SeqType_get d (Z.of_nat (length (t0 :: rest)))))
    /\ sequenceAddType_fold t0 rest = Some d
    /\ (Forall wfShapedType (t0 :: rest) ->
        descriptorOf d
        = fold_left Spec.merge (map descriptorOf rest) (descriptorOf t0))
    /\ (rest = [] -> d = t0).
Proof.
  intros Hin He Hlen.
  destruct (sequenceAddType_fold_same_elementType rest t0 He)
    as [d [Hd [_ Hwf]]].
  exists d. split; [|split; [exact Hd|split]].
  - unfold ONNXSequenceConstructOp.inferShapes. rewrite Hin. simpl nth_error.
    cbv beta iota delta [bind].
    replace (length (t0 :: rest) - 1)%nat with (length rest)
      by (simpl; lia).
    change (ONNXSequenceConstructOp.inferShapes_loop (t0 :: rest) 1
              (length rest) t0)
      with (ONNXSequenceConstructOp.inferShapes_loop ([t0] ++ rest)
              (length [t0]) (length rest) t0).
    rewrite (sequenceAddType_fold_loop rest [t0] t0), Hd.
    rewrite Int64_wrap_in_range; [reflexivity|].
    unfold Int64.in_range, Int64.min_signed. split; [lia | exact Hlen].
  - intro Hall. inversion Hall as [|? ? H0 Hrest]; subst.
    now apply Hwf.
  - intros ->. simpl in Hd. now injection Hd as <-.
Qed.


(** C8.  On a non-empty list [t0 :: rest] of tensor types that share the
    element type of [t0] (a list whose size fits an [int64_t]),
    SequenceConstruct's [inferShapes] returns success, and the result type
    of the operation it returns is a sequence type whose length is the
    number of inputs and whose element type [d] is the left fold of
    [rest] through [sequenceAddType] started at [t0]; read as descriptors
    (the inputs well formed), [d] is the left fold of the reference
    merge.  With a single input, [d] is [t0] itself. *)
Theorem construct_inferShapes_fold (op : ONNXSequenceConstructOp.Op)
    (t0 : ShapedType) (rest : list ShapedType) :
  ONNXSequenceConstructOp.inputs op = t0 :: rest ->
  Forall (fun t => getElementType t = getElementType t0) rest ->
  Z.of_nat (length (t0 :: rest)) <= Int64.max_signed ->
  exists d op',
    ONNXSequenceConstructOp.inferShapes op = Some (success, op')
    /\ ONNXSequenceConstructOp.getResult op'
       = SeqType_get d (Z.of_nat (length (t0 :: rest)))
    /\ op' = ONNXSequenceConstructOp.setType op
               (SeqType_get d (Z.of_nat (length (t0 :: rest))))
    /\ sequenceAddType_fold t0 rest = Some d
    /\ (Forall wfShapedType (t0 :: rest) ->
        descriptorOf d
        = fold_left Spec.merge (map descriptorOf rest) (descriptorOf t0))
    /\ (rest = [] -> d = t0).
Proof.
  intros Hin He Hlen.
  destruct (construct_inferShapes_equation op t0 rest Hin He Hlen)
    as [d [Hop [Hd [Hdesc Hone]]]].
  exists d. eexists. split; [exact Hop|].
  split; [reflexivity|]. split; [reflexivity|].
  split; [exact Hd|]. split; assumption.
Qed.

Lemma construct_inferShapes_fold_witness :
  let t0 := RankedTensorType [2; 3] F32Type in
  let t1 := RankedTensorType [2; 4] F32Type in
  let op := ONNXSequenceConstructOp.Build [t0; t1]
              (SeqType_get (UnrankedTensorType F32Type) (-1)) in
  Forall (fun t => getElementType t = getElementType t0) [t1]
  /\ Z.of_nat (length [t0; t1]) <= Int64.max_signed
  /\ exists op',
       ONNXSequenceConstructOp.inferShapes op = Some (success, op')
       /\ ONNXSequenceConstructOp.getResult op'
          = SeqType_get (RankedTensorType [2; -1] F32Type) 2.
Proof.
  intros t0 t1 op.
  assert (He : Forall (fun t => getElementType t = getElementType t0) [t1])
    by (repeat constructor).
  assert (Hlen : Z.of_nat (length [t0; t1]) <= Int64.max_signed)
    by (vm_compute; discriminate).
  split; [exact He|]. split; [exact Hlen|].
  destruct (construct_inferShapes_fold op t0 [t1] eq_refl He Hlen)
    as [d [op' [Hop [Hres [_ [Hd _]]]]]].
  vm_compute in Hd. injection Hd as <-.
  exists op'. split; [exact Hop | exact Hres].
Defined.

(* ------------------------------------------------------------------ *)
(** ** SequenceEmpty *)

Lemma empty_verify_success (conv : Z -> ElemType)
    (op : ONNXSequenceEmptyOp.Op) :
  ONNXSequenceEmptyOp.verify conv op = success
  <-> getElementType (seqElementType (ONNXSequenceEmptyOp.getResult op))
      = ONNXSequenceEmptyOp.resolvedElementType conv op.
Proof.
  unfold ONNXSequenceEmptyOp.verify.
  destruct (ElemType_eqb _ _) eqn:E; simpl.
  - apply ElemType_eqb_eq in E. now split.
  - split; [intro H; discriminate H|].
    intro H. apply ElemType_eqb_eq in H. congruence.
Qed.

(** C1, as stated, fails.  With no dtype attribute and the declared result
    [seq<tensor<2x3xf32>>], validation passes (the element type is the
    default F32), and [inferShapes] commits [seq<tensor<2x3xf32>>] of
    length 0: the element type stays ranked, it is not the unranked tensor
    of the resolved scalar type. *)
Lemma empty_inferShapes_keeps_ranked_descriptor :
  let declared := SeqType_get (RankedTensorType [2; 3] F32Type) (-1) in
  let op := ONNXSequenceEmptyOp.Build None declared in
  ONNXSequenceEmptyOp.verify exampleONNXTypeToMLIRType op = success
  /\ ONNXSequenceEmptyOp.inferShapes op
     = (success,
        ONNXSequenceEmptyOp.setType op
          (SeqType_get (RankedTensorType [2; 3] F32Type) 0))
  /\ ONNXSequenceEmptyOp.getResult (snd (ONNXSequenceEmptyOp.inferShapes op))
     <> SeqType_get
          (UnrankedTensorType
             (ONNXSequenceEmptyOp.resolvedElementType
                exampleONNXTypeToMLIRType op))
          0.
Proof.
  intros declared op. split; [reflexivity|]. split; [reflexivity|].
  intro H. discriminate H.
Qed.

(** C1, amended.  For every invocation that passes validation,
    SequenceEmpty's [inferShapes] returns success and commits a sequence
    type of length 0 whose element type is the declared result's element
    type, unchanged; its scalar type is the resolved one, so the committed
    element type is the unranked tensor of the resolved scalar type when
    the declared element type was unranked. *)
Theorem empty_inferShapes_keeps_descriptor (conv : Z -> ElemType)
    (op : ONNXSequenceEmptyOp.Op) :
  ONNXSequenceEmptyOp.verify conv op = success ->
  ONNXSequenceEmptyOp.inferShapes op
  = (success,
     ONNXSequenceEmptyOp.setType op
       (SeqType_get (seqElementType (ONNXSequenceEmptyOp.getResult op)) 0))
  /\ getElementType
       (seqElementType
          (ONNXSequenceEmptyOp.getResult
             (snd (ONNXSequenceEmptyOp.inferShapes op))))
     = ONNXSequenceEmptyOp.resolvedElementType conv op
  /\ (hasRank (seqElementType (ONNXSequenceEmptyOp.getResult op)) = false ->
      ONNXSequenceEmptyOp.getResult (snd (ONNXSequenceEmptyOp.inferShapes op))
      = SeqType_get
          (UnrankedTensorType
             (ONNXSequenceEmptyOp.resolvedElementType conv op))
          0).
Proof.
  intro Hv. apply empty_verify_success in Hv.
  split; [reflexivity|]. split; [exact Hv|].
  simpl. destruct (seqElementType (ONNXSequenceEmptyOp.getResult op));
    simpl in *; intro Hr; [now subst | discriminate Hr].
Qed.

Lemma empty_inferShapes_keeps_descriptor_witness :
  let declared :=
    SeqType_get (UnrankedTensorType (IntegerType 32 Signless)) (-1) in
  let op := ONNXSequenceEmptyOp.Build (Some 6) declared in
  ONNXSequenceEmptyOp.verify exampleONNXTypeToMLIRType op = success
  /\ ONNXSequenceEmptyOp.getResult (snd (ONNXSequenceEmptyOp.inferShapes op))
     = SeqType_get (UnrankedTensorType (IntegerType 32 Signless)) 0.
Proof.
  intros declared op. split; [reflexivity|].
  exact (proj2 (proj2
           (empty_inferShapes_keeps_descriptor
              exampleONNXTypeToMLIRType op eq_refl)) eq_refl).
Defined.

(* ------------------------------------------------------------------ *)
(** ** SequenceLength *)

Lemma length_inferShapes_cases (op : ONNXSequenceLengthOp.Op) :
  ONNXSequenceLengthOp.inferShapes op
  = match ONNXSequenceLengthOp.getResult op with
    | TensorT (RankedTensorType [] _) => (success, op)
    | _ => (success, ONNXSequenceLengthOp.setType op scalarI64Type)
    end.
Proof.
  unfold ONNXSequenceLengthOp.inferShapes.
  destruct (ONNXSequenceLengthOp.getResult op)
    as [[e|[|d dims] e]|s|e|]; reflexivity.
Qed.

(** C2.  For every input sequence type and every declared result type
    the operation admits (its result is a tensor of 64-bit integers; the
    element type is checked by the verifier, not by this rule),
    SequenceLength's [inferShapes] returns success and the result type of
    the operation it returns is one fixed type: the rank-0 ranked tensor
    of the 64-bit integer type.  The input sequence is not read. *)
Theorem length_inferShapes_fixed_type (op : ONNXSequenceLengthOp.Op) :
  (forall t,
      ONNXSequenceLengthOp.getResult op = TensorT t ->
      getElementType t = getIntegerType 64) ->
  fst (ONNXSequenceLengthOp.inferShapes op) = success
  /\ ONNXSequenceLengthOp.getResult
       (snd (ONNXSequenceLengthOp.inferShapes op))
     = scalarI64Type
  /\ ONNXSequenceLengthOp.input_sequence
       (snd (ONNXSequenceLengthOp.inferShapes op))
     = ONNXSequenceLengthOp.input_sequence op.
Proof.
  intro Helt. rewrite (length_inferShapes_cases op).
  destruct (ONNXSequenceLengthOp.getResult op)
    as [[e|[|d dims] e]|s|e|] eqn:Hres; simpl;
    (split; [reflexivity|]); (split; [|reflexivity]);
    try reflexivity.
  rewrite Hres. specialize (Helt _ eq_refl). simpl in Helt.
  now rewrite Helt.
Qed.

Lemma length_inferShapes_fixed_type_witness :
  let seq := SeqType_get (RankedTensorType [2; 3] F32Type) 0 in
  let op := ONNXSequenceLengthOp.Build seq
              (TensorT (UnrankedTensorType (getIntegerType 64))) in
  (forall t,
      ONNXSequenceLengthOp.getResult op = TensorT t ->
      getElementType t = getIntegerType 64)
  /\ ONNXSequenceLengthOp.getResult
       (snd (ONNXSequenceLengthOp.inferShapes op))
     = scalarI64Type.
Proof.
  intros seq op.
  assert (H : forall t,
             ONNXSequenceLengthOp.getResult op = TensorT t ->
             getElementType t = getIntegerType 64)
    by (intros t Ht; injection Ht as <-; reflexivity).
  split; [exact H|].
  exact (proj1 (proj2 (length_inferShapes_fixed_type op H))).
Defined.

(* ------------------------------------------------------------------ *)
(** ** SequenceInsert *)

Lemma insert_verify_success (op : ONNXSequenceInsertOp.Op) :
  ONNXSequenceInsertOp.verify op = success
  <-> getElementType (seqElementType (ONNXSequenceInsertOp.input_sequence op))
      = getElementType (ONNXSequenceInsertOp.tensor op).
Proof.
  unfold ONNXSequenceInsertOp.verify.
  destruct (ElemType_eqb _ _) eqn:E; simpl.
  - apply ElemType_eqb_eq in E. now split.
  - split; [intro H; discriminate H|].
    intro H. apply ElemType_eqb_eq in H. congruence.
Qed.





(** Inserting a [tensor<5xf32>] into an empty sequence of unranked
    tensors: the result inherits the tensor's type. *)
Example insert_into_empty :
  let seqType := SeqType_get (UnrankedTensorType F32Type) 0 in
  let tensorType := RankedTensorType [5] F32Type in
  let op := ONNXSequenceInsertOp.Build seqType tensorType NoneT seqType in
  ONNXSequenceInsertOp.inferShapes op
  = Some (success,
          ONNXSequenceInsertOp.setType op (SeqType_get tensorType 1)).
Proof. reflexivity. Qed.

(* ------------------------------------------------------------------ *)
(** ** SequenceErase *)

(** C4.  SequenceErase's [inferShapes] fails if and only if the length of
    the input sequence is 0; the failure is the one reported as
    "SequenceErase from an empty seq", and the operation is then left as
    it was: no result type is set. *)
Theorem erase_inferShapes_fails_iff (op : ONNXSequenceEraseOp.Op) :
  (succeeded (fst (ONNXSequenceEraseOp.inferShapes op)) = false
   <-> getLength (ONNXSequenceEraseOp.input_sequence op) = 0)
  /\ (getLength (ONNXSequenceEraseOp.input_sequence op) = 0 ->
      ONNXSequenceEraseOp.inferShapes op
      = (failure "SequenceErase from an empty seq", op)).
Proof.
  unfold ONNXSequenceEraseOp.inferShapes.
  destruct (getLength (ONNXSequenceEraseOp.input_sequence op) =? 0) eqn:E.
  - apply Z.eqb_eq in E. simpl. repeat split; auto.
  - apply Z.eqb_neq in E. simpl. split.
    + split; [intro H; discriminate H | intro H; contradiction].
    + intro H. contradiction.
Qed.

Lemma erase_inferShapes_fails_iff_witness :
  let seqType := SeqType_get (RankedTensorType [5] F32Type) 0 in
  let op := ONNXSequenceEraseOp.Build seqType NoneT
              (SeqType_get (UnrankedTensorType F32Type) (-1)) in
  getLength (ONNXSequenceEraseOp.input_sequence op) = 0
  /\ ONNXSequenceEraseOp.inferShapes op
     = (failure "SequenceErase from an empty seq", op).
Proof.
  intros seqType op. split; [reflexivity|].
  exact (proj2 (erase_inferShapes_fails_iff op) eq_refl).
Defined.

Lemma erase_inferShapes_equation (op : ONNXSequenceEraseOp.Op) :
  let inputTy := ONNXSequenceEraseOp.input_sequence op in
  Int64.in_range (getLength inputTy) ->
  getLength inputTy <> 0 ->
  exists newLength,
    ONNXSequenceEraseOp.inferShapes op
    = (success,
       ONNXSequenceEraseOp.setType op
         (SeqType_get (seqElementType inputTy) newLength))
    /\ (forall k, getLength inputTy = k -> 0 < k -> newLength = k - 1)
    /\ (getLength inputTy = -1 -> newLength = -1).
Proof.
  intros inputTy Hrange Hne.
  unfold ONNXSequenceEraseOp.inferShapes. fold inputTy.
  apply Z.eqb_neq in Hne. rewrite Hne.
  eexists. split; [reflexivity|]. split.
  - intros k Hk Hpos. rewrite Hk in *.
    destruct (k =? -1) eqn:E1; [apply Z.eqb_eq in E1; lia|].
    apply Int64_wrap_in_range.
    unfold Int64.in_range, Int64.min_signed, Int64.max_signed in *. lia.
  - intros ->. reflexivity.
Qed.


(** C5.  When the length of the input sequence (an [int64_t]) is not 0,
    SequenceErase's [inferShapes] returns success, and the result type of
    the operation it returns is a sequence type with the input's element
    type, unchanged, and with length [k - 1] for an input length [k > 0],
    [-1] (unknown) for an input length [-1]. *)
Theorem erase_inferShapes_succeeds (op : ONNXSequenceEraseOp.Op) :
  let inputTy := ONNXSequenceEraseOp.input_sequence op in
  Int64.in_range (getLength inputTy) ->
  getLength inputTy <> 0 ->
  exists newLength,
    fst (ONNXSequenceEraseOp.inferShapes op) = success
    /\ ONNXSequenceEraseOp.getResult (snd (ONNXSequenceEraseOp.inferShapes op))
       = SeqType_get (seqElementType inputTy) newLength
    /\ ONNXSequenceEraseOp.inferShapes op
       = (success,
          ONNXSequenceEraseOp.setType op
            (SeqType_get (seqElementType inputTy) newLength))
    /\ (forall k, getLength inputTy = k -> 0 < k -> newLength = k - 1)
    /\ (getLength inputTy = -1 -> newLength = -1).
Proof.
  intros inputTy Hrange Hne.
  destruct (erase_inferShapes_equation op Hrange Hne)
    as [newLength [Hop [Hk Hu]]].
  fold inputTy in Hop, Hk, Hu.
  exists newLength. rewrite Hop.
  split; [reflexivity|]. split; [reflexivity|]. split; [reflexivity|].
  split; assumption.
Qed.

Lemma erase_inferShapes_succeeds_witness :
  let seqType := SeqType_get (RankedTensorType [5; -1] F32Type) 3 in
  let op := ONNXSequenceEraseOp.Build seqType NoneT
              (SeqType_get (UnrankedTensorType F32Type) (-1)) in
  Int64.in_range (getLength seqType)
  /\ getLength seqType <> 0
  /\ fst (ONNXSequenceEraseOp.inferShapes op) = success
  /\ ONNXSequenceEraseOp.getResult (snd (ONNXSequenceEraseOp.inferShapes op))
     = SeqType_get (RankedTensorType [5; -1] F32Type) 2.
Proof.
  intros seqType op.
  assert (Hr : Int64.in_range (getLength seqType))
    by (vm_compute; split; discriminate).
  assert (Hn : getLength seqType <> 0) by discriminate.
  split; [exact Hr|]. split; [exact Hn|].
  destruct (erase_inferShapes_succeeds op Hr Hn)
    as [n [Hs [Hres [_ [Hk _]]]]].
  rewrite (Hk 3 eq_refl eq_refl) in Hres.
  split; [exact Hs | exact Hres].
Defined.

(* ------------------------------------------------------------------ *)
(** ** SequenceAt *)

(** The condition under which SequenceAt replaces its result type. *)
Lemma at_inferShapes_cases (op : ONNXSequenceAtOp.Op) :
  ONNXSequenceAtOp.inferShapes op
  = if hasRank (seqElementType (ONNXSequenceAtOp.input_sequence op))
       && isaUnrankedTensorType (ONNXSequenceAtOp.getResult op)
    then (success,
          ONNXSequenceAtOp.setType op
            (TensorT (seqElementType (ONNXSequenceAtOp.input_sequence op))))
    else (success, op).
Proof.
  unfold ONNXSequenceAtOp.inferShapes.
  now destruct (seqElementType (ONNXSequenceAtOp.input_sequence op)).
Qed.



(** C10.  SequenceAt's [inferShapes] returns success on every operation:
    whatever the length of the input sequence (0 included), the position
    operand and the element types, and the outcome does not depend on the
    length or on the position.  When the condition for replacing the
    result type does not hold, the operation is left as it was. *)
Theorem at_inferShapes_never_fails (op : ONNXSequenceAtOp.Op) :
  fst (ONNXSequenceAtOp.inferShapes op) = success
  /\ (forall len pos,
        ONNXSequenceAtOp.getResult
          (snd (ONNXSequenceAtOp.inferShapes
                  (ONNXSequenceAtOp.Build
                     (SeqType_get
                        (seqElementType (ONNXSequenceAtOp.input_sequence op))
                        len)
                     pos (ONNXSequenceAtOp.getResult op))))
        = ONNXSequenceAtOp.getResult (snd (ONNXSequenceAtOp.inferShapes op)))
  /\ (~ (isaUnrankedTensorType
           (TensorT (seqElementType (ONNXSequenceAtOp.input_sequence op)))
         = false
         /\ isaUnrankedTensorType (ONNXSequenceAtOp.getResult op) = true) ->
      ONNXSequenceAtOp.inferShapes op = (success, op)).
Proof.
  rewrite at_inferShapes_cases.
  split; [|split].
  - now destruct (_ && _).
  - intros len pos. rewrite at_inferShapes_cases. simpl.
    now destruct (_ && _).
  - intro H.
    destruct (seqElementType (ONNXSequenceAtOp.input_sequence op));
      destruct (isaUnrankedTensorType (ONNXSequenceAtOp.getResult op));
      simpl in *; try reflexivity.
    exfalso. apply H. now split.
Qed.

Lemma at_inferShapes_never_fails_witness :
  let seqType := SeqType_get (UnrankedTensorType F32Type) 0 in
  let op := ONNXSequenceAtOp.Build seqType NoneT
              (TensorT (UnrankedTensorType (IntegerType 8 Unsigned))) in
  ~ (isaUnrankedTensorType (TensorT (seqElementType seqType)) = false
     /\ isaUnrankedTensorType (ONNXSequenceAtOp.getResult op) = true)
  /\ ONNXSequenceAtOp.inferShapes op = (success, op).
Proof.
  intros seqType op.
  assert (H : ~ (isaUnrankedTensorType (TensorT (seqElementType seqType))
                 = false
                 /\ isaUnrankedTensorType (ONNXSequenceAtOp.getResult op)
                    = true))
    by (intros [H _]; discriminate H).
  split; [exact H|].
  exact (proj2 (proj2 (at_inferShapes_never_fails op)) H).
Defined.

(* ------------------------------------------------------------------ *)
(** ** The order on tensor types: a partial order *)

Lemma weakerDim_spec (r a : Z) : weakerDim r a = true <-> r = -1 \/ r = a.
Proof.
  unfold weakerDim. rewrite orb_true_iff, !Z.eqb_eq. reflexivity.
Qed.

Lemma weakerDims_length (r a : list Z) :
  weakerDims r a = true -> length r = length a.
Proof.
  revert a. induction r as [|x r IH]; intros [|y a] H;
    try reflexivity; try discriminate H.
  simpl in H. apply andb_true_iff in H as [_ H].
  simpl. f_equal. now apply IH.
Qed.

Lemma weakerDims_refl (a : list Z) : weakerDims a a = true.
Proof.
  induction a as [|x a IH]; [reflexivity|].
  simpl. rewrite IH, andb_true_r. apply weakerDim_spec. now right.
Qed.

Lemma weakerDims_trans (c b a : list Z) :
  weakerDims c b = true -> weakerDims b a = true -> weakerDims c a = true.
Proof.
  revert b a. induction c as [|z c IH]; intros [|y b] [|x a] Hcb Hba;
    try reflexivity; try discriminate Hcb; try discriminate Hba.
  simpl in *. apply andb_true_iff in Hcb as [Hz Hcb].
  apply andb_true_iff in Hba as [Hy Hba].
  apply andb_true_iff. split; [|now apply (IH b)].
  apply weakerDim_spec in Hz, Hy. apply weakerDim_spec. lia.
Qed.

Lemma weakerDims_antisym (a b : list Z) :
  weakerDims a b = true -> weakerDims b a = true -> a = b.
Proof.
  revert b. induction a as [|x a IH]; intros [|y b] Hab Hba;
    try reflexivity; try discriminate Hab.
  simpl in *. apply andb_true_iff in Hab as [Hx Hab].
  apply andb_true_iff in Hba as [Hy Hba].
  apply weakerDim_spec in Hx, Hy.
  f_equal; [lia | now apply IH].
Qed.

Lemma weakerDims_dynamic (a : list Z) :
  weakerDims (repeat (-1) (length a)) a = true.
Proof. induction a as [|x a IH]; [reflexivity | exact IH]. Qed.

Lemma weakerType_elementType (r a : ShapedType) :
  weakerType r a = true -> getElementType r = getElementType a.
Proof.
  unfold weakerType. intro H. apply andb_true_iff in H as [H _].
  now apply ElemType_eqb_eq.
Qed.

Lemma weakerType_refl (a : ShapedType) : weakerType a a = true.
Proof.
  unfold weakerType. rewrite ElemType_eqb_refl. simpl.
  destruct a as [e|dims e]; [reflexivity | apply weakerDims_refl].
Qed.

Lemma weakerType_trans (c b a : ShapedType) :
  weakerType c b = true -> weakerType b a = true -> weakerType c a = true.
Proof.
  unfold weakerType. intros Hcb Hba.
  apply andb_true_iff in Hcb as [Ecb Hcb].
  apply andb_true_iff in Hba as [Eba Hba].
  apply ElemType_eqb_eq in Ecb, Eba.
  rewrite Ecb, Eba, ElemType_eqb_refl. simpl.
  destruct c as [ec|dc ec], b as [eb|db eb], a as [ea|da ea];
    try reflexivity; try discriminate Hcb; try discriminate Hba.
  now apply (weakerDims_trans dc db da).
Qed.

Lemma weakerType_antisym (a b : ShapedType) :
  weakerType a b = true -> weakerType b a = true -> a = b.
Proof.
  unfold weakerType. intros Hab Hba.
  apply andb_true_iff in Hab as [Eab Hab].
  apply andb_true_iff in Hba as [_ Hba].
  apply ElemType_eqb_eq in Eab.
  destruct a as [ea|da ea], b as [eb|db eb]; simpl in Eab; subst;
    try reflexivity; try discriminate Hab; try discriminate Hba.
  f_equal. now apply weakerDims_antisym.
Qed.

(* ------------------------------------------------------------------ *)
(** ** The merge is the least upper bound *)

Lemma zipDims_upper_l (a b : list Z) :
  length a = length b -> weakerDims (zipDims a b) a = true.
Proof.
  revert b. induction a as [|x a IH]; intros [|y b] H;
    try reflexivity; try discriminate H.
  injection H as H. unfold zipDims in *. simpl.
  rewrite (IH b H), andb_true_r.
  apply weakerDim_spec. unfold pickDim.
  destruct (x =? y) eqn:E; simpl; [|now left].
  apply Z.eqb_eq in E. now right.
Qed.

Lemma zipDims_upper_r (a b : list Z) :
  length a = length b -> weakerDims (zipDims a b) b = true.
Proof.
  intro H. rewrite zipDims_comm. now apply zipDims_upper_l.
Qed.

Lemma zipDims_least (c a b : list Z) :
  weakerDims c a = true -> weakerDims c b = true ->
  weakerDims c (zipDims a b) = true.
Proof.
  revert a b. induction c as [|z c IH]; intros [|x a] [|y b] Ha Hb;
    try reflexivity; try discriminate Ha; try discriminate Hb.
  simpl in Ha, Hb. apply andb_true_iff in Ha as [Hx Ha].
  apply andb_true_iff in Hb as [Hy Hb].
  unfold zipDims in *. simpl. rewrite (IH a b Ha Hb), andb_true_r.
  apply weakerDim_spec in Hx, Hy. apply weakerDim_spec.
  unfold pickDim. destruct (x =? y) eqn:E; simpl.
  - exact Hy.
  - apply Z.eqb_neq in E. lia.
Qed.

Lemma mergedType_upper_l (a b : ShapedType) :
  getElementType a = getElementType b -> weakerType (mergedType a b) a = true.
Proof.
  intro He. unfold weakerType.
  rewrite (mergedType_elementType a b He), ElemType_eqb_refl. simpl.
  destruct a as [ea|da ea], b as [eb|db eb]; simpl; try reflexivity.
  destruct (Nat.eqb (length da) (length db)) eqn:E; [|reflexivity].
  apply Nat.eqb_eq in E. now apply zipDims_upper_l.
Qed.

Lemma mergedType_upper_r (a b : ShapedType) :
  getElementType a = getElementType b -> weakerType (mergedType a b) b = true.
Proof.
  intro He. rewrite (mergedType_comm a b He).
  apply mergedType_upper_l. now symmetry.
Qed.

Lemma mergedType_least (c a b : ShapedType) :
  weakerType c a = true -> weakerType c b = true ->
  weakerType c (mergedType a b) = true.
Proof.
  intros Ha Hb.
  pose proof (weakerType_elementType c a Ha) as Ea.
  pose proof (weakerType_elementType c b Hb) as Eb.
  assert (Eab : getElementType a = getElementType b) by congruence.
  unfold weakerType in *.
  rewrite (mergedType_elementType a b Eab), Ea, ElemType_eqb_refl.
  rewrite Ea, ElemType_eqb_refl in Ha. rewrite Eb, ElemType_eqb_refl in Hb.
  simpl in *.
  destruct c as [ec|dc ec]; [reflexivity|].
  destruct a as [ea|da ea], b as [eb|db eb];
    try discriminate Ha; try discriminate Hb.
  simpl.
  pose proof (weakerDims_length _ _ Ha) as La.
  pose proof (weakerDims_length _ _ Hb) as Lb.
  rewrite (proj2 (Nat.eqb_eq (length da) (length db))) by congruence.
  now apply zipDims_least.
Qed.

Lemma sequenceAddType_some (a b r : ShapedType) :
  sequenceAddType a b = Some r ->
  getElementType a = getElementType b /\ r = mergedType a b.
Proof.
  intro H.
  destruct (ElemType_eqb (getElementType a) (getElementType b)) eqn:E.
  - apply ElemType_eqb_eq in E. split; [exact E|].
    rewrite (sequenceAddType_same_elementType a b E) in H.
    now injection H as <-.
  - unfold sequenceAddType in H. rewrite E in H. discriminate H.
Qed.

Lemma mergedType_assoc (a b c : ShapedType) :
  getElementType a = getElementType b ->
  getElementType b = getElementType c ->
  mergedType (mergedType a b) c = mergedType a (mergedType b c).
Proof.
  intros Eab Ebc.
  pose proof (mergedType_elementType a b Eab) as Emab.
  pose proof (mergedType_elementType b c Ebc) as Embc.
  assert (E1 : getElementType (mergedType a b) = getElementType c)
    by congruence.
  assert (E2 : getElementType a = getElementType (mergedType b c))
    by congruence.
  apply weakerType_antisym.
  - apply mergedType_least.
    + apply (weakerType_trans _ (mergedType a b)).
      * now apply mergedType_upper_l.
      * now apply mergedType_upper_l.
    + apply mergedType_least.
      * apply (weakerType_trans _ (mergedType a b)).
        -- now apply mergedType_upper_l.
        -- now apply mergedType_upper_r.
      * now apply mergedType_upper_r.
  - apply mergedType_least.
    + apply mergedType_least.
      * now apply mergedType_upper_l.
      * apply (weakerType_trans _ (mergedType b c)).
        -- now apply mergedType_upper_r.
        -- now apply mergedType_upper_l.
    + apply (weakerType_trans _ (mergedType b c)).
      * now apply mergedType_upper_r.
      * now apply mergedType_upper_r.
Qed.

(** X1.  [sequenceAddType] aborts on its assertion exactly when the two
    element types differ; when it returns, the result has the element
    type of both inputs, and a ranked result has the rank of both. *)
Theorem sequenceAddType_returns_iff (a b : ShapedType) :
  (sequenceAddType a b = None <-> getElementType a <> getElementType b)
  /\ (forall r,
        sequenceAddType a b = Some r ->
        getElementType r = getElementType a
        /\ getElementType r = getElementType b
        /\ (hasRank r = true ->
            hasRank a = true /\ hasRank b = true
            /\ getRank r = getRank a /\ getRank r = getRank b)).
Proof.
  split.
  - split.
    + intros H He.
      rewrite (sequenceAddType_same_elementType a b He) in H. discriminate H.
    + apply sequenceAddType_other_elementType.
  - intros r Hr. apply sequenceAddType_some in Hr as [He ->].
    pose proof (mergedType_elementType a b He) as Hm.
    split; [exact Hm|]. split; [congruence|].
    destruct a as [ea|da ea], b as [eb|db eb]; simpl;
      try (intro H; discriminate H).
    destruct (Nat.eqb (length da) (length db)) eqn:E; simpl;
      [|intro H; discriminate H].
    apply Nat.eqb_eq in E. intros _. unfold getRank. simpl.
    rewrite (zipDims_length da db E), E. repeat split; reflexivity.
Qed.

Lemma sequenceAddType_returns_iff_witness :
  let a := RankedTensorType [2; 3] F32Type in
  let b := RankedTensorType [4; 3] (IntegerType 32 Signless) in
  getElementType a <> getElementType b /\ sequenceAddType a b = None.
Proof.
  intros a b.
  assert (H : getElementType a <> getElementType b)
    by (intro E; discriminate E).
  split; [exact H|].
  exact (proj2 (proj1 (sequenceAddType_returns_iff a b)) H).
Defined.

(** X2.  [sequenceAddType] is associative on three tensor types of one
    element type: merging left to right or right to left returns, and
    returns the same type. *)
Theorem sequenceAddType_assoc (a b c : ShapedType) :
  getElementType a = getElementType b ->
  getElementType b = getElementType c ->
  exists r,
    (ab <- sequenceAddType a b ;; sequenceAddType ab c) = Some r
    /\ (bc <- sequenceAddType b c ;; sequenceAddType a bc) = Some r.
Proof.
  intros Eab Ebc.
  exists (mergedType (mergedType a b) c).
  rewrite (sequenceAddType_same_elementType a b Eab).
  rewrite (sequenceAddType_same_elementType b c Ebc).
  simpl. split.
  - apply sequenceAddType_same_elementType.
    rewrite (mergedType_elementType a b Eab). congruence.
  - rewrite (mergedType_assoc a b c Eab Ebc).
    apply sequenceAddType_same_elementType.
    rewrite (mergedType_elementType b c Ebc). exact Eab.
Qed.

Lemma sequenceAddType_assoc_witness :
  let a := RankedTensorType [2; 3] F32Type in
  let b := RankedTensorType [2; 4] F32Type in
  let c := RankedTensorType [5; 4] F32Type in
  getElementType a = getElementType b
  /\ getElementType b = getElementType c
  /\ (ab <- sequenceAddType a b ;; sequenceAddType ab c)
     = (bc <- sequenceAddType b c ;; sequenceAddType a bc).
Proof.
  intros a b c. split; [reflexivity|]. split; [reflexivity|].
  destruct (sequenceAddType_assoc a b c eq_refl eq_refl) as [r [H1 H2]].
  now rewrite H1, H2.
Defined.

(** X3.  The type [sequenceAddType] returns is never more specific than
    either input: it is weaker than or equal to both. *)
Theorem sequenceAddType_upper_bound (a b r : ShapedType) :
  sequenceAddType a b = Some r ->
  weakerType r a = true /\ weakerType r b = true.
Proof.
  intro Hr. apply sequenceAddType_some in Hr as [He ->]. split.
  - now apply mergedType_upper_l.
  - now apply mergedType_upper_r.
Qed.

Lemma sequenceAddType_upper_bound_witness :
  let a := RankedTensorType [2; 3] F32Type in
  let b := RankedTensorType [2; 4] F32Type in
  let r := RankedTensorType [2; -1] F32Type in
  sequenceAddType a b = Some r
  /\ weakerType r a = true /\ weakerType r b = true.
Proof.
  intros a b r. split; [reflexivity|].
  exact (sequenceAddType_upper_bound a b r eq_refl).
Defined.

(** X4.  The type [sequenceAddType] returns is the most specific type
    that is weaker than both inputs: every type weaker than both is
    weaker than the result. *)
Theorem sequenceAddType_least (a b r c : ShapedType) :
  sequenceAddType a b = Some r ->
  weakerType c a = true -> weakerType c b = true ->
  weakerType c r = true.
Proof.
  intros Hr Ha Hb. apply sequenceAddType_some in Hr as [_ ->].
  now apply mergedType_least.
Qed.

Lemma sequenceAddType_least_witness :
  let a := RankedTensorType [2; 3] F32Type in
  let b := RankedTensorType [2; 4] F32Type in
  let r := RankedTensorType [2; -1] F32Type in
  let c := RankedTensorType [-1; -1] F32Type in
  sequenceAddType a b = Some r
  /\ weakerType c a = true /\ weakerType c b = true
  /\ weakerType c r = true.
Proof.
  intros a b r c. split; [reflexivity|].
  split; [reflexivity|]. split; [reflexivity|].
  exact (sequenceAddType_least a b r c eq_refl eq_refl eq_refl).
Defined.

(* ------------------------------------------------------------------ *)
(** ** SequenceConstruct: the fold over the inputs *)

Lemma construct_inferShapes_unfold (op : ONNXSequenceConstructOp.Op) :
  ONNXSequenceConstructOp.inferShapes op
  = match ONNXSequenceConstructOp.inputs op with
    | [] => None
    | t0 :: rest =>
        d <- sequenceAddType_fold t0 rest ;;
        Some (success,
              ONNXSequenceConstructOp.setType op
                (SeqType_get d
                   (Int64.wrap (Z.of_nat (length (t0 :: rest))))))
    end.
Proof.
  unfold ONNXSequenceConstructOp.inferShapes.
  destruct (ONNXSequenceConstructOp.inputs op) as [|t0 rest];
    [reflexivity|].
  simpl nth_error. cbv beta iota delta [bind].
  replace (length (t0 :: rest) - 1)%nat with (length rest) by (simpl; lia).
  change (ONNXSequenceConstructOp.inferShapes_loop (t0 :: rest) 1
            (length rest) t0)
    with (ONNXSequenceConstructOp.inferShapes_loop ([t0] ++ rest)
            (length [t0]) (length rest) t0).
  now rewrite (sequenceAddType_fold_loop rest [t0] t0).
Qed.

Lemma construct_inferShapes_some (op op' : ONNXSequenceConstructOp.Op)
    (r : LogicalResult) :
  ONNXSequenceConstructOp.inferShapes op = Some (r, op') ->
  exists t0 rest d,
    ONNXSequenceConstructOp.inputs op = t0 :: rest
    /\ sequenceAddType_fold t0 rest = Some d
    /\ r = success
    /\ op' = ONNXSequenceConstructOp.setType op
               (SeqType_get d (Int64.wrap (Z.of_nat (length (t0 :: rest))))).
Proof.
  rewrite construct_inferShapes_unfold.
  destruct (ONNXSequenceConstructOp.inputs op) as [|t0 rest];
    [intro H; discriminate H|].
  destruct (sequenceAddType_fold t0 rest) as [d|] eqn:Hd;
    [|intro H; discriminate H].
  simpl. intro H. injection H as <- <-.
  exists t0, rest, d. repeat split; try reflexivity. exact Hd.
Qed.

Lemma sequenceAddType_fold_some (rest : list ShapedType) :
  forall acc d : ShapedType,
    sequenceAddType_fold acc rest = Some d ->
    Forall (fun t => getElementType t = getElementType acc) rest
    /\ weakerType d acc = true
    /\ Forall (fun t => weakerType d t = true) rest
    /\ (forall c,
          weakerType c acc = true ->
          Forall (fun t => weakerType c t = true) rest ->
          weakerType c d = true).
Proof.
  induction rest as [|t rest IH]; intros acc d H.
  - simpl in H. injection H as <-.
    repeat split; try constructor; auto using weakerType_refl.
  - simpl in H.
    destruct (sequenceAddType acc t) as [acc'|] eqn:Hm;
      [|discriminate H].
    simpl in H. apply sequenceAddType_some in Hm as [He ->].
    destruct (IH _ _ H) as [Hall [Hacc [Hrest Hleast]]].
    pose proof (mergedType_elementType acc t He) as Hme.
    split; [|split; [|split]].
    + constructor; [now symmetry|].
      eapply Forall_impl; [|exact Hall]. simpl. intros u Hu. congruence.
    + apply (weakerType_trans _ (mergedType acc t)); [exact Hacc|].
      now apply mergedType_upper_l.
    + constructor; [|exact Hrest].
      apply (weakerType_trans _ (mergedType acc t)); [exact Hacc|].
      now apply mergedType_upper_r.
    + intros c Hc Hcs. inversion Hcs as [|? ? Hct Hcrest]; subst.
      apply Hleast; [|exact Hcrest].
      now apply mergedType_least.
Qed.

(** X5.  SequenceConstruct's [inferShapes] returns exactly when the
    operation has at least one input and every input has the element
    type of the first; otherwise it aborts (on [types[0]] or on the
    assertion of [sequenceAddType]).  When it returns, it returns
    success: the rule has no failure of its own. *)
Theorem construct_inferShapes_returns_iff (op : ONNXSequenceConstructOp.Op) :
  ((exists op', ONNXSequenceConstructOp.inferShapes op = Some (success, op'))
   <-> exists t0 rest,
         ONNXSequenceConstructOp.inputs op = t0 :: rest
         /\ Forall (fun t => getElementType t = getElementType t0) rest)
  /\ (forall r op',
        ONNXSequenceConstructOp.inferShapes op = Some (r, op') ->
        r = success).
Proof.
  split; [split|].
  - intros [op' H].
    destruct (construct_inferShapes_some _ _ _ H)
      as [t0 [rest [d [Hin [Hd _]]]]].
    exists t0, rest. split; [exact Hin|].
    exact (proj1 (sequenceAddType_fold_some rest t0 d Hd)).
  - intros [t0 [rest [Hin He]]].
    destruct (sequenceAddType_fold_same_elementType rest t0 He)
      as [d [Hd _]].
    rewrite construct_inferShapes_unfold, Hin, Hd. simpl.
    eexists. reflexivity.
  - intros r op' H.
    destruct (construct_inferShapes_some _ _ _ H)
      as [t0 [rest [d [_ [_ [Hr _]]]]]].
    exact Hr.
Qed.

Lemma construct_inferShapes_returns_iff_witness :
  let op := ONNXSequenceConstructOp.Build
              [UnrankedTensorType F32Type; RankedTensorType [7] F32Type]
              (SeqType_get (UnrankedTensorType F32Type) (-1)) in
  exists op', ONNXSequenceConstructOp.inferShapes op = Some (success, op').
Proof.
  intro op.
  apply (proj2 (proj1 (construct_inferShapes_returns_iff op))).
  exists (UnrankedTensorType F32Type), [RankedTensorType [7] F32Type].
  split; [reflexivity|]. repeat constructor.
Defined.

(** X6.  When SequenceConstruct's [inferShapes] returns, the element type
    of the sequence it sets is the least upper bound of the input types:
    it is weaker than or equal to every input, and every type weaker
    than all inputs is weaker than it. *)
Theorem construct_inferShapes_lub (op op' : ONNXSequenceConstructOp.Op)
    (r : LogicalResult) :
  ONNXSequenceConstructOp.inferShapes op = Some (r, op') ->
  let d := seqElementType (ONNXSequenceConstructOp.getResult op') in
  Forall (fun t => weakerType d t = true) (ONNXSequenceConstructOp.inputs op)
  /\ (forall c,
        Forall (fun t => weakerType c t = true)
          (ONNXSequenceConstructOp.inputs op) ->
        weakerType c d = true).
Proof.
  intro H.
  destruct (construct_inferShapes_some _ _ _ H)
    as [t0 [rest [d [Hin [Hd [_ ->]]]]]].
  simpl. rewrite Hin.
  destruct (sequenceAddType_fold_some rest t0 d Hd)
    as [_ [H0 [Hrest Hleast]]].
  split.
  - now constructor.
  - intros c Hc. inversion Hc as [|? ? Hc0 Hcrest]; subst.
    now apply Hleast.
Qed.

Lemma construct_inferShapes_lub_witness :
  let t0 := RankedTensorType [2; 3] F32Type in
  let t1 := RankedTensorType [2; 4] F32Type in
  let op := ONNXSequenceConstructOp.Build [t0; t1]
              (SeqType_get (UnrankedTensorType F32Type) (-1)) in
  let d := RankedTensorType [2; -1] F32Type in
  ONNXSequenceConstructOp.inferShapes op
  = Some (success, ONNXSequenceConstructOp.setType op (SeqType_get d 2))
  /\ Forall (fun t => weakerType d t = true) [t0; t1].
Proof.
  intros t0 t1 op d. split; [reflexivity|].
  exact (proj1 (construct_inferShapes_lub op
                  (ONNXSequenceConstructOp.setType op (SeqType_get d 2))
                  success eq_refl)).
Defined.

(** X7.  The type SequenceConstruct infers does not depend on the order
    of its inputs: if [inferShapes] returns on an operation, it returns
    on every operation whose inputs are a permutation of the same types,
    and sets the same sequence type. *)
Theorem construct_inferShapes_permutation
    (op1 op2 op1' : ONNXSequenceConstructOp.Op) (r : LogicalResult) :
  Permutation (ONNXSequenceConstructOp.inputs op1)
    (ONNXSequenceConstructOp.inputs op2) ->
  ONNXSequenceConstructOp.inferShapes op1 = Some (r, op1') ->
  exists op2',
    ONNXSequenceConstructOp.inferShapes op2 = Some (r, op2')
    /\ ONNXSequenceConstructOp.getResult op2'
       = ONNXSequenceConstructOp.getResult op1'.
Proof.
  intros Hperm H.
  destruct (construct_inferShapes_some _ _ _ H)
    as [t0 [rest [d [Hin [Hd [-> ->]]]]]].
  destruct (sequenceAddType_fold_some rest t0 d Hd)
    as [He [Hd0 [Hdrest Hdleast]]].
  rewrite Hin in Hperm.
  assert (Hall1 : Forall (fun t => getElementType t = getElementType t0)
                    (t0 :: rest)) by (now constructor).
  assert (Hup1 : Forall (fun t => weakerType d t = true) (t0 :: rest))
    by (now constructor).
  pose proof (Permutation_Forall Hperm Hall1) as Hall2.
  pose proof (Permutation_Forall Hperm Hup1) as Hup2.
  pose proof (Permutation_length Hperm) as Hlen.
  destruct (ONNXSequenceConstructOp.inputs op2) as [|u0 rest2] eqn:Hin2;
    [discriminate Hlen|].
  inversion Hall2 as [|? ? Hu0 Hrest2]; subst.
  assert (He2 : Forall (fun t => getElementType t = getElementType u0) rest2).
  { eapply Forall_impl; [|exact Hrest2]. simpl. intros u Hu. congruence. }
  destruct (sequenceAddType_fold_same_elementType rest2 u0 He2)
    as [d2 [Hd2 _]].
  destruct (sequenceAddType_fold_some rest2 u0 d2 Hd2)
    as [_ [Hd20 [Hd2rest Hd2least]]].
  assert (Hup : Forall (fun t => weakerType d2 t = true) (t0 :: rest)).
  { apply (Permutation_Forall (Permutation_sym Hperm)). now constructor. }
  assert (Heq : d2 = d).
  { apply weakerType_antisym.
    - inversion Hup as [|? ? Hx Hxs]; subst. now apply Hdleast.
    - inversion Hup2 as [|? ? Hx Hxs]; subst. now apply Hd2least. }
  subst d2.
  rewrite construct_inferShapes_unfold, Hin2, Hd2.
  cbv beta iota delta [bind].
  eexists. split; [reflexivity|].
  cbn [ONNXSequenceConstructOp.getResult ONNXSequenceConstructOp.setType].
  now rewrite Hlen.
Qed.

Lemma construct_inferShapes_permutation_witness :
  let t0 := RankedTensorType [2; 3] F32Type in
  let t1 := UnrankedTensorType F32Type in
  let declared := SeqType_get (UnrankedTensorType F32Type) (-1) in
  let op1 := ONNXSequenceConstructOp.Build [t0; t1] declared in
  let op2 := ONNXSequenceConstructOp.Build [t1; t0] declared in
  exists op2',
    ONNXSequenceConstructOp.inferShapes op2 = Some (success, op2')
    /\ ONNXSequenceConstructOp.getResult op2'
       = SeqType_get (UnrankedTensorType F32Type) 2.
Proof.
  intros t0 t1 declared op1 op2.
  exact (construct_inferShapes_permutation op1 op2
           (ONNXSequenceConstructOp.setType op1
              (SeqType_get (UnrankedTensorType F32Type) 2))
           success (perm_swap t1 t0 []) eq_refl).
Defined.

(** X8.  When all inputs of SequenceConstruct are one and the same
    tensor type, [inferShapes] returns success and the element type of
    the sequence is that type: a shape common to all inputs is kept,
    static dimensions included. *)
Theorem construct_inferShapes_common_type
    (op : ONNXSequenceConstructOp.Op) (t : ShapedType)
    (rest : list ShapedType) :
  ONNXSequenceConstructOp.inputs op = t :: rest ->
  Forall (fun u => u = t) rest ->
  exists op',
    ONNXSequenceConstructOp.inferShapes op = Some (success, op')
    /\ seqElementType (ONNXSequenceConstructOp.getResult op') = t.
Proof.
  intros Hin Hall.
  assert (He : Forall (fun u => getElementType u = getElementType t) rest).
  { eapply Forall_impl; [|exact Hall]. simpl. now intros u ->. }
  destruct (sequenceAddType_fold_same_elementType rest t He) as [d [Hd _]].
  destruct (sequenceAddType_fold_some rest t d Hd)
    as [_ [Hd0 [_ Hleast]]].
  rewrite construct_inferShapes_unfold, Hin, Hd. simpl.
  eexists. split; [reflexivity|]. simpl.
  apply weakerType_antisym; [exact Hd0|].
  apply Hleast; [apply weakerType_refl|].
  eapply Forall_impl; [|exact Hall]. simpl.
  intros u ->. apply weakerType_refl.
Qed.

Lemma construct_inferShapes_common_type_witness :
  let t := RankedTensorType [2; -1; 4] F32Type in
  let op := ONNXSequenceConstructOp.Build [t; t; t]
              (SeqType_get (UnrankedTensorType F32Type) (-1)) in
  exists op',
    ONNXSequenceConstructOp.inferShapes op = Some (success, op')
    /\ seqElementType (ONNXSequenceConstructOp.getResult op') = t.
Proof.
  intros t op.
  apply (construct_inferShapes_common_type op t [t; t] eq_refl).
  repeat constructor.
Defined.

Lemma weakerType_dynamic (d t : ShapedType) (n : nat) :
  weakerType d t = true ->
  hasRank t = true -> length (getShape t) = n ->
  weakerType (RankedTensorType (repeat (-1) n) (getElementType d)) t = true.
Proof.
  intros Hd Hr Hl. pose proof (weakerType_elementType d t Hd) as E.
  destruct t as [et|dt et]; [discriminate Hr|].
  unfold weakerType. simpl in *.
  rewrite E, ElemType_eqb_refl. simpl.
  rewrite <- Hl. apply weakerDims_dynamic.
Qed.

(** X9.  When SequenceConstruct's [inferShapes] returns, the element type
    of the sequence is ranked exactly when all inputs are ranked with one
    and the same rank; a single unranked input, or two inputs of
    different rank, leave the sequence with an unranked element type. *)
Theorem construct_inferShapes_ranked_iff
    (op op' : ONNXSequenceConstructOp.Op) (r : LogicalResult) :
  ONNXSequenceConstructOp.inferShapes op = Some (r, op') ->
  (hasRank (seqElementType (ONNXSequenceConstructOp.getResult op')) = true
   <-> exists n,
         Forall (fun t => hasRank t = true /\ length (getShape t) = n)
           (ONNXSequenceConstructOp.inputs op)).
Proof.
  intro H.
  destruct (construct_inferShapes_some _ _ _ H)
    as [t0 [rest [d [Hin [Hd [_ ->]]]]]].
  simpl. rewrite Hin.
  destruct (sequenceAddType_fold_some rest t0 d Hd)
    as [_ [H0 [Hrest Hleast]]].
  assert (Hup : Forall (fun t => weakerType d t = true) (t0 :: rest))
    by (now constructor).
  split.
  - intro Hr. destruct d as [e|dims e]; [discriminate Hr|].
    exists (length dims).
    eapply Forall_impl; [|exact Hup]. simpl. intros t Ht.
    unfold weakerType in Ht. apply andb_true_iff in Ht as [_ Ht].
    destruct t as [et|dt et]; [discriminate Ht|].
    simpl. split; [reflexivity|].
    symmetry. now apply weakerDims_length.
  - intros [n Hn].
    assert (Hc : weakerType (RankedTensorType (repeat (-1) n)
                               (getElementType d)) d = true).
    { inversion Hn as [|? ? [Hr0 Hl0] Hnrest]; subst.
      apply Hleast.
      - now apply weakerType_dynamic.
      - apply Forall_forall. intros t Ht.
        destruct (proj1 (Forall_forall _ _) Hnrest t Ht) as [Hrt Hlt].
        apply weakerType_dynamic; [|exact Hrt|exact Hlt].
        exact (proj1 (Forall_forall _ _) Hrest t Ht). }
    unfold weakerType in Hc. apply andb_true_iff in Hc as [_ Hc].
    destruct d as [e|dims e]; [discriminate Hc | reflexivity].
Qed.

Lemma construct_inferShapes_ranked_iff_witness :
  let t0 := RankedTensorType [2; 3] F32Type in
  let t1 := RankedTensorType [5; -1] F32Type in
  let op := ONNXSequenceConstructOp.Build [t0; t1]
              (SeqType_get (UnrankedTensorType F32Type) (-1)) in
  let op' := ONNXSequenceConstructOp.setType op
               (SeqType_get (RankedTensorType [-1; -1] F32Type) 2) in
  ONNXSequenceConstructOp.inferShapes op = Some (success, op')
  /\ hasRank (seqElementType (ONNXSequenceConstructOp.getResult op')) = true.
Proof.
  intros t0 t1 op op'. split; [reflexivity|].
  apply (proj2 (construct_inferShapes_ranked_iff op op' success eq_refl)).
  exists 2%nat. repeat constructor.
Defined.

(* ------------------------------------------------------------------ *)
(** ** SequenceInsert: aborts, and widening *)

Lemma insert_inferShapes_unfold (op : ONNXSequenceInsertOp.Op) :
  ONNXSequenceInsertOp.inferShapes op
  = if getLength (ONNXSequenceInsertOp.input_sequence op) =? 0
    then Some (success,
               ONNXSequenceInsertOp.setType op
                 (SeqType_get (ONNXSequenceInsertOp.tensor op) 1))
    else
      d <- sequenceAddType
             (seqElementType (ONNXSequenceInsertOp.input_sequence op))
             (ONNXSequenceInsertOp.tensor op) ;;
      Some (success,
            ONNXSequenceInsertOp.setType op
              (SeqType_get d
                 (if getLength (ONNXSequenceInsertOp.input_sequence op) =? -1
                  then -1
                  else Int64.wrap
                         (getLength (ONNXSequenceInsertOp.input_sequence op)
                          + 1)))).
Proof. reflexivity. Qed.

(** X10.  SequenceInsert's [inferShapes] aborts (on the assertion of
    [sequenceAddType]) exactly when the input sequence does not have
    length 0 and [verify] rejects the operation; an operation that passes
    [verify] always gets a result.  When [inferShapes] returns it returns
    success, and the scalar type of the sequence it sets is the scalar
    type of the inserted tensor. *)
Theorem insert_inferShapes_returns_iff (op : ONNXSequenceInsertOp.Op) :
  (ONNXSequenceInsertOp.inferShapes op = None
   <-> getLength (ONNXSequenceInsertOp.input_sequence op) <> 0
       /\ ONNXSequenceInsertOp.verify op <> success)
  /\ (ONNXSequenceInsertOp.verify op = success ->
      exists op', ONNXSequenceInsertOp.inferShapes op = Some (success, op'))
  /\ (forall r op',
        ONNXSequenceInsertOp.inferShapes op = Some (r, op') ->
        r = success
        /\ getElementType
             (seqElementType (ONNXSequenceInsertOp.getResult op'))
           = getElementType (ONNXSequenceInsertOp.tensor op)).
Proof.
  rewrite insert_inferShapes_unfold.
  pose proof (insert_verify_success op) as Hv.
  destruct (getLength (ONNXSequenceInsertOp.input_sequence op) =? 0) eqn:E0.
  - apply Z.eqb_eq in E0. split; [split|split].
    + intro H. discriminate H.
    + intros [H _]. contradiction.
    + intros _. eexists. reflexivity.
    + intros r op' H. injection H as <- <-. split; reflexivity.
  - apply Z.eqb_neq in E0.
    destruct (sequenceAddType _ _) as [d|] eqn:Hd; simpl.
    + apply sequenceAddType_some in Hd as [He ->].
      split; [split|split].
      * intro H. discriminate H.
      * intros [_ H]. exfalso. apply H. now apply Hv.
      * intros _. eexists. reflexivity.
      * intros r op' H. injection H as <- <-. split; [reflexivity|].
        simpl. rewrite (mergedType_elementType _ _ He). exact He.
    + assert (Hne : ONNXSequenceInsertOp.verify op <> success).
      { intro H. apply Hv in H.
        rewrite (sequenceAddType_same_elementType _ _ H) in Hd.
        discriminate Hd. }
      split; [split|split].
      * intros _. now split.
      * reflexivity.
      * intro H. contradiction.
      * intros r op' H. discriminate H.
Qed.

Lemma insert_inferShapes_returns_iff_witness :
  let seqType := SeqType_get (RankedTensorType [2] F32Type) 4 in
  let tensorType := RankedTensorType [2] F64Type in
  let op := ONNXSequenceInsertOp.Build seqType tensorType NoneT seqType in
  (getLength (ONNXSequenceInsertOp.input_sequence op) <> 0
   /\ ONNXSequenceInsertOp.verify op <> success)
  /\ ONNXSequenceInsertOp.inferShapes op = None.
Proof.
  intros seqType tensorType op.
  assert (H : getLength (ONNXSequenceInsertOp.input_sequence op) <> 0
              /\ ONNXSequenceInsertOp.verify op <> success)
    by (split; intro E; discriminate E).
  split; [exact H|].
  exact (proj2 (proj1 (insert_inferShapes_returns_iff op)) H).
Defined.

(** X11.  Inserting into a sequence whose length is not 0 only widens:
    the element type SequenceInsert sets is the least upper bound of the
    sequence's element type and the inserted tensor's type, so it is
    never more specific than the element type the sequence had. *)
Theorem insert_inferShapes_widens (op op' : ONNXSequenceInsertOp.Op)
    (r : LogicalResult) :
  getLength (ONNXSequenceInsertOp.input_sequence op) <> 0 ->
  ONNXSequenceInsertOp.inferShapes op = Some (r, op') ->
  let d := seqElementType (ONNXSequenceInsertOp.getResult op') in
  weakerType d (seqElementType (ONNXSequenceInsertOp.input_sequence op))
  = true
  /\ weakerType d (ONNXSequenceInsertOp.tensor op) = true
  /\ (forall c,
        weakerType c
          (seqElementType (ONNXSequenceInsertOp.input_sequence op)) = true ->
        weakerType c (ONNXSequenceInsertOp.tensor op) = true ->
        weakerType c d = true).
Proof.
  intros Hne. rewrite insert_inferShapes_unfold.
  apply Z.eqb_neq in Hne. rewrite Hne.
  destruct (sequenceAddType _ _) as [d|] eqn:Hd; simpl;
    [|intro H; discriminate H].
  intro H. injection H as <- <-. simpl.
  apply sequenceAddType_some in Hd as [He ->].
  split; [|split].
  - now apply mergedType_upper_l.
  - now apply mergedType_upper_r.
  - intros c. apply mergedType_least.
Qed.

Lemma insert_inferShapes_widens_witness :
  let seqType := SeqType_get (RankedTensorType [2; -1] F32Type) (-1) in
  let tensorType := RankedTensorType [3; 3] F32Type in
  let op := ONNXSequenceInsertOp.Build seqType tensorType NoneT seqType in
  let d := RankedTensorType [-1; -1] F32Type in
  getLength (ONNXSequenceInsertOp.input_sequence op) <> 0
  /\ ONNXSequenceInsertOp.inferShapes op
     = Some (success,
             ONNXSequenceInsertOp.setType op (SeqType_get d (-1)))
  /\ weakerType d (seqElementType seqType) = true.
Proof.
  intros seqType tensorType op d.
  assert (H : getLength (ONNXSequenceInsertOp.input_sequence op) <> 0)
    by (intro E; discriminate E).
  split; [exact H|]. split; [reflexivity|].
  exact (proj1 (insert_inferShapes_widens op
                  (ONNXSequenceInsertOp.setType op (SeqType_get d (-1)))
                  success H eq_refl)).
Defined.

(* ------------------------------------------------------------------ *)
(** ** Chains of operations *)

Lemma erase_inferShapes_unfold (op : ONNXSequenceEraseOp.Op) :
  ONNXSequenceEraseOp.inferShapes op
  = if getLength (ONNXSequenceEraseOp.input_sequence op) =? 0
    then (failure "SequenceErase from an empty seq", op)
    else (success,
          ONNXSequenceEraseOp.setType op
            (SeqType_get
               (seqElementType (ONNXSequenceEraseOp.input_sequence op))
               (if getLength (ONNXSequenceEraseOp.input_sequence op) =? -1
                then -1
                else Int64.wrap
                       (getLength (ONNXSequenceEraseOp.input_sequence op)
                        - 1)))).
Proof. reflexivity. Qed.

Lemma erase_after_insert_equation (ins ins' : ONNXSequenceInsertOp.Op)
    (er : ONNXSequenceEraseOp.Op) (r : LogicalResult) :
  -1 <= getLength (ONNXSequenceInsertOp.input_sequence ins)
     < Int64.max_signed ->
  ONNXSequenceInsertOp.inferShapes ins = Some (r, ins') ->
  ONNXSequenceEraseOp.input_sequence er
  = ONNXSequenceInsertOp.getResult ins' ->
  ONNXSequenceEraseOp.inferShapes er
  = (success,
     ONNXSequenceEraseOp.setType er
       (SeqType_get
          (seqElementType (ONNXSequenceInsertOp.getResult ins'))
          (getLength (ONNXSequenceInsertOp.input_sequence ins)))).
Proof.
  intros Hk Hins Her.
  rewrite erase_inferShapes_unfold, Her.
  rewrite insert_inferShapes_unfold in Hins.
  remember (getLength (ONNXSequenceInsertOp.input_sequence ins)) as k.
  assert (Hw : Int64.wrap (k + 1) = k + 1).
  { apply Int64_wrap_in_range.
    unfold Int64.in_range, Int64.min_signed, Int64.max_signed in *. lia. }
  assert (Hw' : Int64.wrap (k + 1 - 1) = k).
  { replace (k + 1 - 1) with k by lia. apply Int64_wrap_in_range.
    unfold Int64.in_range, Int64.min_signed, Int64.max_signed in *. lia. }
  destruct (k =? 0) eqn:E0.
  - apply Z.eqb_eq in E0. injection Hins as _ <-. simpl.
    now rewrite E0.
  - apply Z.eqb_neq in E0.
    destruct (sequenceAddType _ _) as [d|]; [|discriminate Hins].
    simpl in Hins. injection Hins as _ <-. simpl.
    destruct (k =? -1) eqn:E1.
    + apply Z.eqb_eq in E1. now rewrite E1.
    + apply Z.eqb_neq in E1. rewrite Hw.
      destruct (k + 1 =? 0) eqn:E2; [apply Z.eqb_eq in E2; lia|].
      destruct (k + 1 =? -1) eqn:E3; [apply Z.eqb_eq in E3; lia|].
      now rewrite Hw'.
Qed.


(** X12.  Erase after Insert.  Let SequenceInsert infer its result on a
    sequence of length [k], known ([0 <= k], [k + 1] an [int64_t]) or
    unknown ([k = -1]).  SequenceErase applied to that result never
    fails, and the result type of the operation it returns has the
    length [k] again and the element type the insertion produced. *)
Theorem erase_after_insert (ins ins' : ONNXSequenceInsertOp.Op)
    (er : ONNXSequenceEraseOp.Op) (r : LogicalResult) :
  -1 <= getLength (ONNXSequenceInsertOp.input_sequence ins)
     < Int64.max_signed ->
  ONNXSequenceInsertOp.inferShapes ins = Some (r, ins') ->
  ONNXSequenceEraseOp.input_sequence er
  = ONNXSequenceInsertOp.getResult ins' ->
  fst (ONNXSequenceEraseOp.inferShapes er) = success
  /\ ONNXSequenceEraseOp.getResult (snd (ONNXSequenceEraseOp.inferShapes er))
     = SeqType_get
         (seqElementType (ONNXSequenceInsertOp.getResult ins'))
         (getLength (ONNXSequenceInsertOp.input_sequence ins)).
Proof.
  intros Hk Hins Her.
  rewrite (erase_after_insert_equation ins ins' er r Hk Hins Her).
  split; reflexivity.
Qed.

Lemma erase_after_insert_witness :
  let seqType := SeqType_get (RankedTensorType [2; 3] F32Type) 2 in
  let tensorType := RankedTensorType [2; 4] F32Type in
  let ins := ONNXSequenceInsertOp.Build seqType tensorType NoneT seqType in
  let merged := SeqType_get (RankedTensorType [2; -1] F32Type) 3 in
  let er := ONNXSequenceEraseOp.Build merged NoneT seqType in
  -1 <= getLength seqType < Int64.max_signed
  /\ ONNXSequenceInsertOp.inferShapes ins
     = Some (success, ONNXSequenceInsertOp.setType ins merged)
  /\ fst (ONNXSequenceEraseOp.inferShapes er) = success
  /\ ONNXSequenceEraseOp.getResult (snd (ONNXSequenceEraseOp.inferShapes er))
     = SeqType_get (RankedTensorType [2; -1] F32Type) 2.
Proof.
  intros seqType tensorType ins merged er.
  assert (Hk : -1 <= getLength seqType < Int64.max_signed)
    by (vm_compute; split; [discriminate | reflexivity]).
  split; [exact Hk|]. split; [reflexivity|].
  exact (erase_after_insert ins
           (ONNXSequenceInsertOp.setType ins merged) er success
           Hk eq_refl eq_refl).
Defined.

Lemma insert_after_erase_equations (er : ONNXSequenceEraseOp.Op)
    (ins : ONNXSequenceInsertOp.Op) :
  let inputTy := ONNXSequenceEraseOp.input_sequence er in
  0 < getLength inputTy <= Int64.max_signed ->
  ONNXSequenceInsertOp.input_sequence ins
  = ONNXSequenceEraseOp.getResult (snd (ONNXSequenceEraseOp.inferShapes er)) ->
  (getLength inputTy = 1 ->
   ONNXSequenceInsertOp.inferShapes ins
   = Some (success,
           ONNXSequenceInsertOp.setType ins
             (SeqType_get (ONNXSequenceInsertOp.tensor ins) 1)))
  /\ (1 < getLength inputTy ->
      ONNXSequenceInsertOp.inferShapes ins
      = d <- sequenceAddType (seqElementType inputTy)
               (ONNXSequenceInsertOp.tensor ins) ;;
        Some (success,
              ONNXSequenceInsertOp.setType ins
                (SeqType_get d (getLength inputTy)))).
Proof.
  intros inputTy Hk Hin.
  rewrite erase_inferShapes_unfold in Hin. fold inputTy in Hin.
  remember (getLength inputTy) as k.
  destruct (k =? 0) eqn:E0; [apply Z.eqb_eq in E0; lia|].
  destruct (k =? -1) eqn:E1; [apply Z.eqb_eq in E1; lia|].
  assert (Hw : Int64.wrap (k - 1) = k - 1).
  { apply Int64_wrap_in_range.
    unfold Int64.in_range, Int64.min_signed, Int64.max_signed in *. lia. }
  rewrite Hw in Hin. simpl in Hin.
  rewrite insert_inferShapes_unfold, Hin. simpl.
  split.
  - intros ->. reflexivity.
  - intro Hgt.
    destruct (k - 1 =? 0) eqn:E2; [apply Z.eqb_eq in E2; lia|].
    destruct (k - 1 =? -1) eqn:E3; [apply Z.eqb_eq in E3; lia|].
    replace (k - 1 + 1) with k by lia.
    rewrite Int64_wrap_in_range; [reflexivity|].
    unfold Int64.in_range, Int64.min_signed, Int64.max_signed in *. lia.
Qed.


(** X13.  Insert after Erase.  Erasing from a sequence of known length
    [k > 0] and inserting into the result gives a sequence of length [k]
    again, read on the result type of the operation the insertion
    returns.  When [k = 1] the erased sequence is empty, so the insertion
    drops the element type the sequence had and takes the inserted
    tensor's type as it is; when [k > 1] the element type is the merge of
    the old element type and the tensor's type. *)
Theorem insert_after_erase (er : ONNXSequenceEraseOp.Op)
    (ins : ONNXSequenceInsertOp.Op) :
  let inputTy := ONNXSequenceEraseOp.input_sequence er in
  0 < getLength inputTy <= Int64.max_signed ->
  ONNXSequenceInsertOp.input_sequence ins
  = ONNXSequenceEraseOp.getResult (snd (ONNXSequenceEraseOp.inferShapes er)) ->
  (getLength inputTy = 1 ->
   exists ins',
     ONNXSequenceInsertOp.inferShapes ins = Some (success, ins')
     /\ ONNXSequenceInsertOp.getResult ins'
        = SeqType_get (ONNXSequenceInsertOp.tensor ins) 1)
  /\ (1 < getLength inputTy ->
      forall d,
        sequenceAddType (seqElementType inputTy)
          (ONNXSequenceInsertOp.tensor ins) = Some d ->
        exists ins',
          ONNXSequenceInsertOp.inferShapes ins = Some (success, ins')
          /\ ONNXSequenceInsertOp.getResult ins'
             = SeqType_get d (getLength inputTy)).
Proof.
  intros inputTy Hk Hin.
  destruct (insert_after_erase_equations er ins Hk Hin) as [H1 Hgt].
  fold inputTy in H1, Hgt.
  split.
  - intro Hone. eexists. split; [exact (H1 Hone)|]. reflexivity.
  - intros Hlt d Hd. rewrite (Hgt Hlt), Hd.
    eexists. split; reflexivity.
Qed.

Lemma insert_after_erase_witness :
  let elt := RankedTensorType [2; 3] F32Type in
  let tensorType := RankedTensorType [2; 7] F32Type in
  let er1 := ONNXSequenceEraseOp.Build (SeqType_get elt 1) NoneT
               (SeqType_get elt (-1)) in
  let ins1 := ONNXSequenceInsertOp.Build (SeqType_get elt 0) tensorType
                NoneT (SeqType_get elt (-1)) in
  let er3 := ONNXSequenceEraseOp.Build (SeqType_get elt 3) NoneT
               (SeqType_get elt (-1)) in
  let ins3 := ONNXSequenceInsertOp.Build (SeqType_get elt 2) tensorType
                NoneT (SeqType_get elt (-1)) in
  (exists ins',
      ONNXSequenceInsertOp.inferShapes ins1 = Some (success, ins')
      /\ ONNXSequenceInsertOp.getResult ins' = SeqType_get tensorType 1)
  /\ (exists ins',
        ONNXSequenceInsertOp.inferShapes ins3 = Some (success, ins')
        /\ ONNXSequenceInsertOp.getResult ins'
           = SeqType_get (RankedTensorType [2; -1] F32Type) 3).
Proof.
  intros elt tensorType er1 ins1 er3 ins3.
  assert (Hk1 : 0 < getLength (ONNXSequenceEraseOp.input_sequence er1)
                <= Int64.max_signed)
    by (vm_compute; split; [reflexivity | discriminate]).
  assert (Hk3 : 0 < getLength (ONNXSequenceEraseOp.input_sequence er3)
                <= Int64.max_signed)
    by (vm_compute; split; [reflexivity | discriminate]).
  split.
  - exact (proj1 (insert_after_erase er1 ins1 Hk1 eq_refl) eq_refl).
  - exact (proj2 (insert_after_erase er3 ins3 Hk3 eq_refl) eq_refl
             (RankedTensorType [2; -1] F32Type) eq_refl).
Defined.

Lemma empty_then_erase_insert_equations (e : ONNXSequenceEmptyOp.Op) :
  let emptyTy :=
    ONNXSequenceEmptyOp.getResult (snd (ONNXSequenceEmptyOp.inferShapes e)) in
  (forall er,
      ONNXSequenceEraseOp.input_sequence er = emptyTy ->
      ONNXSequenceEraseOp.inferShapes er
      = (failure "SequenceErase from an empty seq", er))
  /\ (forall ins,
        ONNXSequenceInsertOp.input_sequence ins = emptyTy ->
        ONNXSequenceInsertOp.inferShapes ins
        = Some (success,
                ONNXSequenceInsertOp.setType ins
                  (SeqType_get (ONNXSequenceInsertOp.tensor ins) 1))).
Proof.
  intro emptyTy. split.
  - intros er Her. rewrite erase_inferShapes_unfold, Her. reflexivity.
  - intros ins Hins. rewrite insert_inferShapes_unfold, Hins. reflexivity.
Qed.


(** X14.  On the sequence SequenceEmpty infers, SequenceErase always
    fails and leaves its operation as it was, and SequenceInsert always
    succeeds and the result type of the operation it returns is a
    sequence of length 1 whose element type is the inserted tensor's
    type: the element type declared for the empty sequence plays no
    part, not even its scalar type. *)
Theorem empty_then_erase_insert (e : ONNXSequenceEmptyOp.Op) :
  let emptyTy :=
    ONNXSequenceEmptyOp.getResult (snd (ONNXSequenceEmptyOp.inferShapes e)) in
  (forall er,
      ONNXSequenceEraseOp.input_sequence er = emptyTy ->
      ONNXSequenceEraseOp.inferShapes er
      = (failure "SequenceErase from an empty seq", er))
  /\ (forall ins,
        ONNXSequenceInsertOp.input_sequence ins = emptyTy ->
        exists ins',
          ONNXSequenceInsertOp.inferShapes ins = Some (success, ins')
          /\ ONNXSequenceInsertOp.getResult ins'
             = SeqType_get (ONNXSequenceInsertOp.tensor ins) 1).
Proof.
  intro emptyTy.
  destruct (empty_then_erase_insert_equations e) as [Her Hins].
  fold emptyTy in Her, Hins.
  split; [exact Her|].
  intros ins Hin. eexists. split; [exact (Hins ins Hin)|]. reflexivity.
Qed.

Lemma empty_then_erase_insert_witness :
  let e := ONNXSequenceEmptyOp.Build None
             (SeqType_get (UnrankedTensorType F32Type) (-1)) in
  let emptyTy := SeqType_get (UnrankedTensorType F32Type) 0 in
  let tensorType := RankedTensorType [4] (IntegerType 64 Signless) in
  let ins := ONNXSequenceInsertOp.Build emptyTy tensorType NoneT emptyTy in
  ONNXSequenceInsertOp.input_sequence ins
  = ONNXSequenceEmptyOp.getResult (snd (ONNXSequenceEmptyOp.inferShapes e))
  /\ exists ins',
       ONNXSequenceInsertOp.inferShapes ins = Some (success, ins')
       /\ ONNXSequenceInsertOp.getResult ins' = SeqType_get tensorType 1.
Proof.
  intros e emptyTy tensorType ins. split; [reflexivity|].
  exact (proj2 (empty_then_erase_insert e) ins eq_refl).
Defined.

Lemma erase_after_construct_equation (c c' : ONNXSequenceConstructOp.Op)
    (er : ONNXSequenceEraseOp.Op) (r : LogicalResult) :
  Z.of_nat (length (ONNXSequenceConstructOp.inputs c)) <= Int64.max_signed ->
  ONNXSequenceConstructOp.inferShapes c = Some (r, c') ->
  ONNXSequenceEraseOp.input_sequence er
  = ONNXSequenceConstructOp.getResult c' ->
  ONNXSequenceEraseOp.inferShapes er
  = (success,
     ONNXSequenceEraseOp.setType er
       (SeqType_get
          (seqElementType (ONNXSequenceConstructOp.getResult c'))
          (Z.of_nat (length (ONNXSequenceConstructOp.inputs c)) - 1))).
Proof.
  intros Hlen Hc Her.
  destruct (construct_inferShapes_some _ _ _ Hc)
    as [t0 [rest [d [Hin [_ [_ ->]]]]]].
  rewrite Hin in *.
  rewrite erase_inferShapes_unfold, Her.
  cbn [ONNXSequenceConstructOp.getResult ONNXSequenceConstructOp.setType
       getLength seqElementType].
  remember (Z.of_nat (length (t0 :: rest))) as n.
  assert (Hn : 1 <= n) by (subst n; simpl length; lia).
  rewrite (Int64_wrap_in_range n)
    by (unfold Int64.in_range, Int64.min_signed, Int64.max_signed in *; lia).
  destruct (n =? 0) eqn:E0; [apply Z.eqb_eq in E0; lia|].
  destruct (n =? -1) eqn:E1; [apply Z.eqb_eq in E1; lia|].
  rewrite Int64_wrap_in_range; [reflexivity|].
  unfold Int64.in_range, Int64.min_signed, Int64.max_signed in *. lia.
Qed.


(** X15.  SequenceErase applied to the sequence SequenceConstruct infers
    never fails: the constructed sequence has one element per input, at
    least one, so the erasure succeeds, and the result type of the
    operation it returns has one element less and the same element
    type. *)
Theorem erase_after_construct (c c' : ONNXSequenceConstructOp.Op)
    (er : ONNXSequenceEraseOp.Op) (r : LogicalResult) :
  Z.of_nat (length (ONNXSequenceConstructOp.inputs c)) <= Int64.max_signed ->
  ONNXSequenceConstructOp.inferShapes c = Some (r, c') ->
  ONNXSequenceEraseOp.input_sequence er
  = ONNXSequenceConstructOp.getResult c' ->
  fst (ONNXSequenceEraseOp.inferShapes er) = success
  /\ ONNXSequenceEraseOp.getResult (snd (ONNXSequenceEraseOp.inferShapes er))
     = SeqType_get
         (seqElementType (ONNXSequenceConstructOp.getResult c'))
         (Z.of_nat (length (ONNXSequenceConstructOp.inputs c)) - 1).
Proof.
  intros Hlen Hc Her.
  rewrite (erase_after_construct_equation c c' er r Hlen Hc Her).
  split; reflexivity.
Qed.

Lemma erase_after_construct_witness :
  let t0 := RankedTensorType [2; 3] F32Type in
  let declared := SeqType_get (UnrankedTensorType F32Type) (-1) in
  let c := ONNXSequenceConstructOp.Build [t0] declared in
  let er := ONNXSequenceEraseOp.Build (SeqType_get t0 1) NoneT declared in
  Z.of_nat (length (ONNXSequenceConstructOp.inputs c)) <= Int64.max_signed
  /\ ONNXSequenceConstructOp.inferShapes c
     = Some (success,
             ONNXSequenceConstructOp.setType c (SeqType_get t0 1))
  /\ fst (ONNXSequenceEraseOp.inferShapes er) = success
  /\ ONNXSequenceEraseOp.getResult (snd (ONNXSequenceEraseOp.inferShapes er))
     = SeqType_get t0 0.
Proof.
  intros t0 declared c er.
  assert (Hlen : Z.of_nat (length (ONNXSequenceConstructOp.inputs c))
                 <= Int64.max_signed)
    by (vm_compute; discriminate).
  split; [exact Hlen|]. split; [reflexivity|].
  exact (erase_after_construct c
           (ONNXSequenceConstructOp.setType c (SeqType_get t0 1))
           er success Hlen eq_refl eq_refl).
Defined.

(* ------------------------------------------------------------------ *)
(** ** Running a rule again *)

(** X16.  SequenceAt's [inferShapes] is idempotent: run on the operation
    it returned, it succeeds and changes nothing.  After inference the
    result is still an unranked tensor only if the element type of the
    sequence is unranked, in which case the operation was not touched. *)
Theorem at_inferShapes_idempotent (op : ONNXSequenceAtOp.Op) :
  ONNXSequenceAtOp.inferShapes (snd (ONNXSequenceAtOp.inferShapes op))
  = (success, snd (ONNXSequenceAtOp.inferShapes op))
  /\ (isaUnrankedTensorType
        (ONNXSequenceAtOp.getResult (snd (ONNXSequenceAtOp.inferShapes op)))
      = true ->
      hasRank (seqElementType (ONNXSequenceAtOp.input_sequence op)) = false
      /\ snd (ONNXSequenceAtOp.inferShapes op) = op).
Proof.
  rewrite (at_inferShapes_cases op).
  destruct (hasRank (seqElementType (ONNXSequenceAtOp.input_sequence op)))
    eqn:Hr;
    destruct (isaUnrankedTensorType (ONNXSequenceAtOp.getResult op)) eqn:Hu;
    simpl; rewrite at_inferShapes_cases; simpl; rewrite ?Hr, ?Hu; simpl.
  - destruct (seqElementType (ONNXSequenceAtOp.input_sequence op));
      [discriminate Hr|].
    simpl. split; [reflexivity|]. intro H. discriminate H.
  - split; [reflexivity|]. intro H. congruence.
  - split; [reflexivity|]. intros _. now split.
  - split; [reflexivity|]. intros _. now split.
Qed.

Lemma at_inferShapes_idempotent_witness :
  let seqType := SeqType_get (UnrankedTensorType F32Type) 3 in
  let op := ONNXSequenceAtOp.Build seqType NoneT
              (TensorT (UnrankedTensorType F32Type)) in
  isaUnrankedTensorType
    (ONNXSequenceAtOp.getResult (snd (ONNXSequenceAtOp.inferShapes op)))
  = true
  /\ snd (ONNXSequenceAtOp.inferShapes op) = op.
Proof.
  intros seqType op. split; [reflexivity|].
  exact (proj2 (proj2 (at_inferShapes_idempotent op) eq_refl)).
Defined.

(** X17.  After SequenceLength's [inferShapes] the result is always a
    rank-0 ranked tensor, whatever was declared, and the rule is
    idempotent: run on the operation it returned, it succeeds and changes
    nothing. *)
Theorem length_inferShapes_idempotent (op : ONNXSequenceLengthOp.Op) :
  (exists e,
      ONNXSequenceLengthOp.getResult
        (snd (ONNXSequenceLengthOp.inferShapes op))
      = TensorT (RankedTensorType [] e))
  /\ ONNXSequenceLengthOp.inferShapes
       (snd (ONNXSequenceLengthOp.inferShapes op))
     = (success, snd (ONNXSequenceLengthOp.inferShapes op)).
Proof.
  rewrite (length_inferShapes_cases op).
  destruct (ONNXSequenceLengthOp.getResult op)
    as [[e|[|d dims] e]|s|e|] eqn:Hres; simpl;
    (split; [eexists; try reflexivity; try exact Hres|]);
    rewrite length_inferShapes_cases; simpl; rewrite ?Hres; reflexivity.
Qed.
